(** * BMI calculator: the BMI engine, the record store and the HTTP handlers
    of [main.go], embedded in Rocq.

    Go's [float64] is IEEE 754 binary64, which is what Rocq's primitive
    [float] is: the arithmetic and the comparisons below are the machine's.
    The process state (the global [users] slice, the disk, the log) is threaded
    explicitly through a small state-and-failure monad.  The Go packages the
    program calls but does not define (strconv, encoding/json, html/template,
    fmt's float verb) are the fields of the class [GoLib]. *)

From Stdlib Require Import ZArith List Ascii String Floats Uint63 Lia.
From stdpp Require Import base option strings gmap pretty.
Import ListNotations.

#[local] Set Warnings "-inexact-float".
#[local] Open Scope float_scope.

(** * Part I: the program *)

(** ** Float64 order keys

    A key that orders the binary64 values other than NaN, used to reason about
    Go's [<] and [<=] on [float64]. *)

Module F64.

Definition is_nan (x : float) : bool := PrimFloat.is_nan x.

(** A key that orders the binary64 values other than NaN: the sign class,
    then the exponent, then the mantissa, negated for negative numbers. *)
Definition key (x : spec_float) : Z * Z * Z :=
  match x with
  | S754_zero _ | S754_nan => (0, 0, 0)
  | S754_infinity false => (2, 0, 0)
  | S754_infinity true => (-2, 0, 0)
  | S754_finite false m e => (1, e, Z.pos m)
  | S754_finite true m e => (-1, - e, Z.neg m)
  end%Z.

Definition lt3 (a b : Z * Z * Z) : Prop :=
  let '(a1, a2, a3) := a in
  let '(b1, b2, b3) := b in
  (a1 < b1 \/ (a1 = b1 /\ (a2 < b2 \/ (a2 = b2 /\ a3 < b3))))%Z.

Definition le3 (a b : Z * Z * Z) : Prop :=
  let '(a1, a2, a3) := a in
  let '(b1, b2, b3) := b in
  (a1 < b1 \/ (a1 = b1 /\ (a2 < b2 \/ (a2 = b2 /\ a3 <= b3))))%Z.

Definition fkey (x : float) : Z * Z * Z := key (Prim2SF x).

End F64.

(** ** BMI engine *)

(** [calculateBMI]: the guard on the height, then the quotient. *)
Definition calculateBMI (weightKg heightM : float) : float :=
  if heightM <=? 0 then 0.0
  else weightKg / (heightM * heightM).

(** [getBMICategory]: Go's expressionless [switch], the cases tried in order. *)
Definition getBMICategory (bmi : float) : string :=
  if bmi <? 18.5 then "Underweight"
  else if (18.5 <=? bmi) && (bmi <=? 24.9) then "Normal Weight"
  else if (25.0 <=? bmi) && (bmi <=? 29.9) then "Overweight"
  else if 30.0 <=? bmi then "Obesity"
  else "Cannot interpret".

(** ** Data model *)

(** Go's [[]byte] and [string] are both byte sequences; so is a Rocq [string]
    (a list of 8-bit characters). *)
Abbreviation bytes := string (only parsing).

(** An [error] is represented by its message; [None] is Go's [nil]. *)
Abbreviation error := (option string) (only parsing).

Record User := mkUser {
  Name : string;
  WeightKg : float;
  HeightM : float;
  BMI : float;
  Category : string;
}.

(** [ViewModel] is what the handlers hand to the HTML template. *)
Record ViewModel := mkViewModel {
  Users : list User;
  Message : string;
}.

(** Modelled from the spec: the constant [dataFile], which [main.go] uses but
    does not declare (the declaration is commented out there).  The spec calls
    it a fixed configuration constant; the commented line and the README give
    its value. *)
Definition dataFile : string := "users_data.json".

(** ** The file system *)

Inductive fnode :=
| RegularFile (data : bytes)
| Directory.

Record Disk := mkDisk {
  nodes : gmap string fnode;
  readonly : bool;
}.

Inductive errno := ENOENT | EISDIR | EROFS.

Definition IsNotExist (e : errno) : bool :=
  match e with ENOENT => true | _ => false end.

Definition errno_text (e : errno) : string :=
  match e with
  | ENOENT => "no such file or directory"
  | EISDIR => "is a directory"
  | EROFS => "read-only file system"
  end.

(** The text of the [*fs.PathError] that package os returns. *)
Definition PathError (op path : string) (e : errno) : string :=
  op +:+ " " +:+ path +:+ ": " +:+ errno_text e.

(** [os.ReadFile(name)]: a missing file fails at the open, a directory at the
    read. *)
Definition os_ReadFile (d : Disk) (name : string) : bytes * option errno :=
  match nodes d !! name with
  | None => ("", Some ENOENT)
  | Some Directory => ("", Some EISDIR)
  | Some (RegularFile data) => (data, None)
  end.

(** The operation that the [*fs.PathError] of [os.ReadFile] names. *)
Definition ReadFile_op (e : errno) : string :=
  match e with
  | EISDIR => "read"
  | _ => "open"
  end.

(** [os.WriteFile(name, data, 0644)]: the file is created or replaced as a
    whole.  The failures modelled are those of the open (a read-only file
    system, a directory at the path), which leave the disk as it was; a write
    that fails after the open has truncated the file is not modelled. *)
Definition os_WriteFile (d : Disk) (name : string) (data : bytes)
  : Disk * option errno :=
  if readonly d then (d, Some EROFS)
  else match nodes d !! name with
       | Some Directory => (d, Some EISDIR)
       | _ => (mkDisk (<[name := RegularFile data]> (nodes d)) (readonly d), None)
       end.

(** ** HTTP requests and responses *)

(** [url.Values]: a key has a list of values. *)
Abbreviation Values := (gmap string (list string)) (only parsing).

(** [Values.Get]: the first value of the key, or the empty string. *)
Definition Values_Get (v : Values) (key : string) : string :=
  match v !! key with
  | Some (x :: _) => x
  | _ => ""
  end.

Record Request := mkRequest {
  Method : string;
  Path : string;              (* r.URL.Path *)
  URLQuery : Values;          (* r.URL.Query() *)
  ParseFormErr : error;       (* what r.ParseForm() returns *)
  Form : Values;              (* r.Form once ParseForm has run *)
}.

(** [r.FormValue(key)] after a successful [r.ParseForm()]. *)
Definition FormValue (r : Request) (key : string) : string :=
  Values_Get (Form r) key.

(** An [http.ResponseWriter]: the status line once written, the header map and
    the body written so far. *)
Record ResponseWriter := mkResponseWriter {
  status : option Z;
  header : gmap string string;
  body : string;
}.

Definition newResponseWriter : ResponseWriter :=
  mkResponseWriter None ∅ "".

Definition Header_Set (key value : string) (w : ResponseWriter) : ResponseWriter :=
  mkResponseWriter (status w) (<[key := value]> (header w)) (body w).

(** [w.WriteHeader(code)]: only the first call counts. *)
Definition WriteHeader (code : Z) (w : ResponseWriter) : ResponseWriter :=
  match status w with
  | Some _ => w
  | None => mkResponseWriter (Some code) (header w) (body w)
  end.

(** [w.Write(data)]: an implicit [WriteHeader(200)] first. *)
Definition w_Write (data : string) (w : ResponseWriter) : ResponseWriter :=
  let w' := WriteHeader 200 w in
  mkResponseWriter (status w') (header w') (body w' +:+ data).

Definition StatusMethodNotAllowed : Z := 405.
Definition StatusBadRequest : Z := 400.
Definition StatusInternalServerError : Z := 500.
Definition StatusSeeOther : Z := 303.
Definition MethodPost : string := "POST".

(** [http.Error(w, msg, code)]: plain-text headers, the status, the message and
    a newline. *)
Definition http_Error (w : ResponseWriter) (msg : string) (code : Z)
  : ResponseWriter :=
  w_Write (msg +:+ String "010"%char "")
    (WriteHeader code
       (Header_Set "X-Content-Type-Options" "nosniff"
          (Header_Set "Content-Type" "text/plain; charset=utf-8" w))).

(** [http.Redirect(w, r, url, code)] for an absolute path and a request that is
    not a GET or HEAD (the only call is on the POST path): the Location header
    and the status, without a body. *)
Definition http_Redirect (w : ResponseWriter) (r : Request) (url : string)
  (code : Z) : ResponseWriter :=
  WriteHeader code (Header_Set "Location" url w).

(** ** The Go packages the program relies on *)

Class GoLib := {
  (** [strconv.ParseFloat(s, 64)] *)
  ParseFloat : string -> float * error;
  (** [json.MarshalIndent(v, "", "  ")] on a [[]User] *)
  MarshalIndent : list User -> bytes * error;
  (** [json.Unmarshal(data, &v)] on a [*[]User]: the slice before, the slice
      after and the error *)
  Unmarshal : bytes -> list User -> list User * error;
  (** [tpl.ExecuteTemplate(w, "layout", data)], [tpl] being the parsed
      templates *)
  ExecuteTemplate : ResponseWriter -> ViewModel -> ResponseWriter * error;
  (** the error of [template.ParseGlob("templates/*.html")] *)
  ParseGlob : Disk -> error;
  (** [fmt]'s verb [%.2f] *)
  Sprintf_2f : float -> string;
}.

(** ** Process state and the monad of the program *)

Record State := mkState {
  users : list User;      (* the global slice *)
  disk : Disk;
  logs : list string;     (* what package log has printed *)
}.

(** A computation ends normally, in a run-time panic, or with the process
    exiting ([log.Fatalf]). *)
Inductive result (A : Type) :=
| Done (a : A) (s : State)
| Panic (msg : string) (s : State)
| Exit (code : Z) (s : State).
Arguments Done {A} a s.
Arguments Panic {A} msg s.
Arguments Exit {A} code s.

Definition M (A : Type) : Type := State -> result A.

Definition ret {A} (a : A) : M A := fun s => Done a s.

Definition bind {A B} (m : M A) (k : A -> M B) : M B :=
  fun s => match m s with
           | Done a s' => k a s'
           | Panic msg s' => Panic msg s'
           | Exit code s' => Exit code s'
           end.

Declare Scope go_scope.
Delimit Scope go_scope with go.
Notation "x <- m ; k" := (bind m (fun x => k))
  (at level 100, m at next level, right associativity) : go_scope.
Notation "m ;; k" := (bind m (fun _ => k))
  (at level 100, right associativity) : go_scope.
#[local] Open Scope go_scope.

Definition gets {A} (f : State -> A) : M A := fun s => Done (f s) s.

Definition set_users (us : list User) : M unit :=
  fun s => Done tt (mkState us (disk s) (logs s)).

Definition set_disk (d : Disk) : M unit :=
  fun s => Done tt (mkState (users s) d (logs s)).

Definition panic {A} (msg : string) : M A := fun s => Panic msg s.

(** [log.Printf]: one more line in the log. *)
Definition log_Printf (line : string) : M unit :=
  fun s => Done tt (mkState (users s) (disk s) (logs s ++ [line])).

(** [log.Fatalf]: the line, then [os.Exit(1)]. *)
Definition log_Fatalf {A} (line : string) : M A :=
  fun s => Exit 1 (mkState (users s) (disk s) (logs s ++ [line])).

(** [xs[i]] with Go's bounds check. *)
Definition index {A} (xs : list A) (i : Z) : M A :=
  if (i <? 0)%Z then
    panic ("runtime error: index out of range [" +:+ pretty i +:+ "]")
  else match xs !! Z.to_nat i with
       | Some x => ret x
       | None =>
           panic ("runtime error: index out of range [" +:+ pretty i
                  +:+ "] with length " +:+ pretty (length xs))
       end.

Definition len {A} (xs : list A) : Z := Z.of_nat (length xs).

Section Program.
Context `{GoLib}.

(** ** Record store *)

(** [loadUserData]: the file read and decoded into the global slice. *)
Definition loadUserData : M unit :=
  d <- gets disk;
  let '(data, err) := os_ReadFile d dataFile in
  match err with
  | Some e =>
      if IsNotExist e then
        set_users [];;
        log_Printf ("Note: " +:+ dataFile
                    +:+ " not found. Starting with an empty user list.")
      else
        log_Fatalf ("Error reading data file: "
                    +:+ PathError (ReadFile_op e) dataFile e)
  | None =>
      us <- gets users;
      let '(us', err) := Unmarshal data us in
      set_users us';;
      match err with
      | Some e => log_Fatalf ("Error unmarshalling JSON data: " +:+ e)
      | None =>
          log_Printf ("Loaded " +:+ pretty (length us')
                      +:+ " user records from " +:+ dataFile +:+ ".")
      end
  end.

(** [saveUserData]: the whole slice encoded and written over the file. *)
Definition saveUserData : M error :=
  us <- gets users;
  let '(jsonData, err) := MarshalIndent us in
  match err with
  | Some e => ret (Some ("error marshalling user data: " +:+ e))
  | None =>
      d <- gets disk;
      let '(d', err) := os_WriteFile d dataFile jsonData in
      set_disk d';;
      match err with
      | Some e =>
          ret (Some ("error writing data to file: "
                     +:+ PathError "open" dataFile e))
      | None => ret None
      end
  end.

(** ** HTTP handlers *)

(** [indexHandler]: the page with the current records. *)
Definition indexHandler (w : ResponseWriter) (r : Request) : M ResponseWriter :=
  us <- gets users;
  let data := mkViewModel us "" in
  let '(w', err) := ExecuteTemplate w data in
  match err with
  | Some e =>
      ret (http_Error w' ("Error rendering template: " +:+ e)
             StatusInternalServerError)
  | None => ret w'
  end.

Definition invalidInputMessage : string :=
  "Invalid input. Please enter valid positive numbers for weight and height.".

(** [calculateHandler]: the form checked, the BMI computed, the record
    appended and saved, the client redirected. *)
Definition calculateHandler (w : ResponseWriter) (r : Request)
  : M ResponseWriter :=
  if negb (String.eqb (Method r) MethodPost) then
    ret (http_Error w "Method not allowed" StatusMethodNotAllowed)
  else
    match ParseFormErr r with
    | Some e =>
        ret (http_Error w ("Error parsing form data: " +:+ e) StatusBadRequest)
    | None =>
        let name := FormValue r "name" in
        let weightStr := FormValue r "weight" in
        let heightStr := FormValue r "height" in
        let '(weightKg, errW) := ParseFloat weightStr in
        let '(heightM, errH) := ParseFloat heightStr in
        if bool_decide (errW <> None) || bool_decide (errH <> None)
           || (weightKg <=? 0) || (heightM <=? 0)
        then ret (http_Error w invalidInputMessage StatusBadRequest)
        else
          let bmi := calculateBMI weightKg heightM in
          let category := getBMICategory bmi in
          let newUser := mkUser name weightKg heightM bmi category in
          us <- gets users;
          set_users (us ++ [newUser]);;
          err <- saveUserData;
          match err with
          | Some e => log_Printf ("Failed to save data: " +:+ e)
          | None => ret tt
          end;;
          ret (http_Redirect w r "/?status=success" StatusSeeOther)
    end.

(** The success line of the page: [fmt.Sprintf] with the two arguments. *)
Definition successMessage (name : string) (bmi : float) : string :=
  "Success! " +:+ name +:+ "'s BMI (" +:+ Sprintf_2f bmi
  +:+ ") calculated and saved.".

(** The handler that [main] registers for the pattern "/". *)
Definition rootHandler (w : ResponseWriter) (r : Request) : M ResponseWriter :=
  if String.eqb (Values_Get (URLQuery r) "status") "success" then
    us <- gets users;
    u1 <- index us (len us - 1);
    u2 <- index us (len us - 1);
    let data := mkViewModel us (successMessage (Name u1) (BMI u2)) in
    let '(w', err) := ExecuteTemplate w data in
    match err with
    | Some e =>
        ret (http_Error w' ("Error rendering template: " +:+ e)
               StatusInternalServerError)
    | None => ret w'
    end
  else indexHandler w r.

(** ** The server *)

(** The two patterns of the mux: "/calculate" matches that path, "/" every
    other one.  [Path] is a clean path: for a path that is not (a doubled
    slash, a dot element) the real mux answers 301 itself and runs no handler,
    which is not modelled. *)
Definition route (r : Request) : M ResponseWriter :=
  if String.eqb (Path r) "/calculate" then calculateHandler newResponseWriter r
  else rootHandler newResponseWriter r.

(** One request served.  net/http recovers a panicking handler: the
    connection is dropped ([None]) and the process goes on, with whatever the
    handler had done to the state. *)
Definition serveHTTP (r : Request) : M (option ResponseWriter) :=
  fun s => match route r s with
           | Done w s' => Done (Some w) s'
           | Panic msg s' =>
               Done None
                 (mkState (users s') (disk s')
                    (logs s' ++ ["http: panic serving: " +:+ msg]))
           | Exit code s' => Exit code s'
           end.

(** The requests of a run, served one after the other. *)
Fixpoint serve (rs : list Request) : M (list (option ResponseWriter)) :=
  match rs with
  | [] => ret []
  | r :: rs' =>
      w <- serveHTTP r;
      ws <- serve rs';
      ret (w :: ws)
  end.

(** [main]: the records loaded, the templates parsed, the server started. *)
Definition main (rs : list Request) : M (list (option ResponseWriter)) :=
  loadUserData;;
  d <- gets disk;
  match ParseGlob d with
  | Some e => log_Fatalf ("Error loading templates: " +:+ e)
  | None => ret tt
  end;;
  log_Printf "Starting web server on http://localhost:8080";;
  serve rs.

End Program.

(** ** Notions the statements use *)

Section Notions.
Context `{GoLib}.

(** The record [calculateHandler] builds from a submission. *)
Definition newUserOf (r : Request) : User :=
  let weightKg := fst (ParseFloat (FormValue r "weight")) in
  let heightM := fst (ParseFloat (FormValue r "height")) in
  let bmi := calculateBMI weightKg heightM in
  mkUser (FormValue r "name") weightKg heightM bmi (getBMICategory bmi).

(** The test of step 2 of [calculateHandler]. *)
Definition rejected (r : Request) : bool :=
  let '(weightKg, errW) := ParseFloat (FormValue r "weight") in
  let '(heightM, errH) := ParseFloat (FormValue r "height") in
  bool_decide (errW <> None) || bool_decide (errH <> None)
  || (weightKg <=? 0) || (heightM <=? 0).

End Notions.

Definition missingNote : string :=
  "Note: users_data.json not found. Starting with an empty user list.".

(** A record is consistent when its BMI and category are the ones computed
    from its weight and height. *)
Definition consistent (u : User) : Prop :=
  BMI u = calculateBMI (WeightKg u) (HeightM u) /\
  Category u = getBMICategory (BMI u).

(** The state in which a computation ends. *)
Definition state_of {A} (res : result A) : State :=
  match res with
  | Done _ s | Panic _ s | Exit _ s => s
  end.

(** [s'] has the records of [s], in place, followed by consistent ones. *)
Definition extends (s s' : State) : Prop :=
  exists added, users s' = users s ++ added /\ Forall consistent added.

(** ** Decidable equality of records *)

#[global] Instance float_eq_dec : EqDecision float.
Proof.
  intros x y. unfold Decision.
  destruct (PrimFloat.Leibniz.eqb x y) eqn:E.
  - left. apply FloatAxioms.Leibniz.eqb_spec. exact E.
  - right. intros Hxy. apply FloatAxioms.Leibniz.eqb_spec in Hxy. congruence.
Defined.

#[global] Instance User_eq_dec : EqDecision User.
Proof. solve_decision. Defined.

(** ** A concrete library for running examples

    One instance of [GoLib], on which the program can be evaluated: a
    correctly rounding parser of decimal literals and of the special values,
    [%.2f] by exact rounding, a one-line
    template, and the JSON codec restricted to the record sets of the examples
    below, with the documents encoding/json writes for them. *)

Module Sample.

Definition digit (c : ascii) : option Z :=
  let n := Z.of_N (N_of_ascii c) in
  if ((48 <=? n) && (n <=? 57))%Z then Some (n - 48)%Z else None.

Definition LF : string := String "010"%char EmptyString.
Definition quoted (s : string) : string :=
  String "034"%char EmptyString +:+ s +:+ String "034"%char EmptyString.

(** A run of decimal digits: the number they continue from [m], how many
    there are, and what follows them. *)
Fixpoint digits (s : string) (m n : Z) : Z * Z * string :=
  match s with
  | EmptyString => (m, n, s)
  | String c s' =>
      match digit c with
      | Some d => digits s' (10 * m + d)%Z (n + 1)%Z
      | None => (m, n, s)
      end
  end.

(** An optional sign. *)
Definition signed (s : string) : bool * string :=
  match s with
  | String c r =>
      if Ascii.eqb c "-"%char then (true, r)
      else if Ascii.eqb c "+"%char then (false, r)
      else (false, s)
  | EmptyString => (false, s)
  end.

(** The binary64 value nearest to [m * 10^e10], ties to even, by exact
    integer arithmetic. *)
Definition nearest (m : positive) (e10 : Z) : spec_float :=
  if (0 <=? e10)%Z then
    binary_normalize prec emax (Z.pos m * 10 ^ e10) 0 false
  else
    match (10 ^ (- e10))%Z with
    | Z.pos d => SFdiv prec emax (S754_finite false m 0) (S754_finite false d 0)
    | _ => S754_nan
    end.

(** The same for a mantissa that may be zero; exponents far outside the
    range of binary64 are answered without computing the power. *)
Definition magnitude (m e10 : Z) : float :=
  match m with
  | Z.pos p =>
      if (400 <? e10)%Z then infinity
      else if (e10 + Z.log2 m + 1 <? -400)%Z then 0
      else SF2Prim (nearest p e10)
  | _ => 0
  end.

Definition syntaxError (s : string) : string :=
  "strconv.ParseFloat: parsing " +:+ quoted s +:+ ": invalid syntax".

Definition rangeError (s : string) : string :=
  "strconv.ParseFloat: parsing " +:+ quoted s +:+ ": value out of range".

(** Decimal literals: a sign, digits with a point, an exponent.  The value
    is correctly rounded; a literal too large for binary64 gives an infinity
    with a range error.  Hexadecimal literals and digit separators are not
    read: they are reported as syntax errors. *)
Definition parseDecimal (s : string) : float * error :=
  let '(neg, rest) := signed s in
  let '(mi, ni, r1) := digits rest 0 0 in
  let '(m, nf, r2) :=
    match r1 with
    | String c r => if Ascii.eqb c "."%char then digits r mi 0 else (mi, 0%Z, r1)
    | EmptyString => (mi, 0%Z, r1)
    end in
  let exponent : option (Z * string) :=
    match r2 with
    | String c r =>
        if Ascii.eqb c "e"%char || Ascii.eqb c "E"%char then
          let '(eneg, r') := signed r in
          let '(ev, ne, r3) := digits r' 0 0 in
          if (ne =? 0)%Z then None
          else Some ((if eneg then - ev else ev)%Z, r3)
        else Some (0%Z, r2)
    | EmptyString => Some (0%Z, r2)
    end in
  if (ni + nf =? 0)%Z then (0, Some (syntaxError s))
  else
    match exponent with
    | Some (e, EmptyString) =>
        let v := magnitude m (e - nf) in
        if PrimFloat.is_infinity v then
          (if neg then neg_infinity else infinity, Some (rangeError s))
        else (if neg then - v else v, None)
    | _ => (0, Some (syntaxError s))
    end.

Definition lower_ascii (c : ascii) : ascii :=
  let n := N_of_ascii c in
  if ((65 <=? n) && (n <=? 90))%N then ascii_of_N (n + 32) else c.

Fixpoint lower (s : string) : string :=
  match s with
  | EmptyString => EmptyString
  | String c s' => String (lower_ascii c) (lower s')
  end.

(** [strconv.ParseFloat(s, 64)]: the special values, in any case of letters,
    then the decimal literals. *)
Definition parseFloat (s : string) : float * error :=
  let l := lower s in
  if decide (l = "nan") then (nan, None)
  else if decide (l = "inf") then (infinity, None)
  else if decide (l = "+inf") then (infinity, None)
  else if decide (l = "-inf") then (neg_infinity, None)
  else if decide (l = "infinity") then (infinity, None)
  else if decide (l = "+infinity") then (infinity, None)
  else if decide (l = "-infinity") then (neg_infinity, None)
  else parseDecimal s.

(** Hundredths of [m * 2^e], rounded to nearest, ties to even. *)
Definition hundredths (m : positive) (e : Z) : Z :=
  let n := (Z.pos m * 100)%Z in
  if (0 <=? e)%Z then (n * 2 ^ e)%Z
  else
    let d := (2 ^ (- e))%Z in
    let q := (n / d)%Z in
    let r := (n mod d)%Z in
    if (2 * r <? d)%Z then q
    else if (d <? 2 * r)%Z then (q + 1)%Z
    else if Z.even q then q else (q + 1)%Z.

Definition two_digits (n : Z) : string :=
  if (n <? 10)%Z then "0" +:+ pretty n else pretty n.

(** [%.2f]. *)
Definition format_2f (x : float) : string :=
  match Prim2SF x with
  | S754_nan => "NaN"
  | S754_infinity false => "+Inf"
  | S754_infinity true => "-Inf"
  | S754_zero s => (if s then "-" else "") +:+ "0.00"
  | S754_finite s m e =>
      let h := hundredths m e in
      (if s then "-" else "") +:+ pretty (h / 100)%Z +:+ "."
      +:+ two_digits (h mod 100)%Z
  end.

Definition ada : User :=
  mkUser "Ada" 75.5 1.75 (calculateBMI 75.5 1.75) (getBMICategory (calculateBMI 75.5 1.75)).

(** The document [json.MarshalIndent] writes for [[ada]]. *)
Definition ada_json : string :=
  "[" +:+ LF +:+
  "  {" +:+ LF +:+
  "    " +:+ quoted "name" +:+ ": " +:+ quoted "Ada" +:+ "," +:+ LF +:+
  "    " +:+ quoted "weight_kg" +:+ ": 75.5," +:+ LF +:+
  "    " +:+ quoted "height_m" +:+ ": 1.75," +:+ LF +:+
  "    " +:+ quoted "bmi" +:+ ": 24.653061224489797," +:+ LF +:+
  "    " +:+ quoted "category" +:+ ": " +:+ quoted "Normal Weight" +:+ LF +:+
  "  }" +:+ LF +:+
  "]".

Definition marshal (us : list User) : bytes * error :=
  if decide (us = []) then ("[]", None)
  else if decide (us = [ada]) then (ada_json, None)
  else ("", Some "json: unsupported value").

Definition unmarshal (data : bytes) (prior : list User) : list User * error :=
  if decide (data = "[]") then ([], None)
  else if decide (data = ada_json) then ([ada], None)
  else (prior, Some "invalid character looking for beginning of value").

Definition execute (w : ResponseWriter) (data : ViewModel)
  : ResponseWriter * error :=
  (w_Write ("<p>" +:+ Message data +:+ "</p>") w, None).

#[export] Instance lib : GoLib := {|
  ParseFloat := parseFloat;
  MarshalIndent := marshal;
  Unmarshal := unmarshal;
  ExecuteTemplate := execute;
  ParseGlob := fun _ => None;
  Sprintf_2f := format_2f;
|}.

Definition emptyDisk : Disk := mkDisk ∅ false.
Definition initial : State := mkState [] emptyDisk [].

(** A form submission to /calculate. *)
Definition post (name weight height : string) : Request :=
  mkRequest "POST" "/calculate" ∅ None
    (<["name" := [name]]> (<["weight" := [weight]]> (<["height" := [height]]> ∅))).

(** A request for the page, with or without the success indicator. *)
Definition get (success : bool) : Request :=
  mkRequest "GET" "/"
    (if success then <["status" := ["success"]]> ∅ else ∅) None ∅.

End Sample.

(** The state of a process that has loaded the document of [[ada]]. *)
Definition adaStored : State :=
  mkState [Sample.ada]
    (mkDisk {[ dataFile := RegularFile Sample.ada_json ]} false)
    ["Loaded 1 user records from users_data.json."].

(** ** Further notions the statements use *)

Section MoreNotions.
Context `{GoLib}.

(** The requests that [calculateHandler] turns into a record: a POST whose
    form parses and passes the test of step 2. *)
Definition valid_submission (r : Request) : bool :=
  String.eqb (Method r) MethodPost && bool_decide (ParseFormErr r = None)
  && negb (rejected r).

(** The requests that the server turns into a record: the valid submissions
    sent to /calculate. *)
Definition accepted (r : Request) : bool :=
  String.eqb (Path r) "/calculate" && valid_submission r.

End MoreNotions.

(** A record whose weight and height passed the test of step 2, so that the
    guard of [calculateBMI] was not taken for it. *)
Definition validated (u : User) : Prop :=
  (WeightKg u <=? 0) = false /\ (HeightM u <=? 0) = false /\
  BMI u = WeightKg u / (HeightM u * HeightM u).

(** Two disks that differ at most in the persisted file. *)
Definition same_but_dataFile (d d' : Disk) : Prop :=
  readonly d' = readonly d /\
  forall p : string, p <> dataFile -> nodes d' !! p = nodes d !! p.

(** The sign of a binary64 value is clear (NaN has none). *)
Definition sign_clear (x : spec_float) : Prop :=
  match x with
  | S754_nan => True
  | S754_zero s | S754_infinity s | S754_finite s _ _ => s = false
  end.

(** ** The library under the name the examples on special values use

    [strconv.ParseFloat] accepts "NaN", and "Inf" or "Infinity" with an
    optional sign, in any case of letters, without error. *)

Module SampleSpecial.

Definition parseSpecial (s : string) : float * error := Sample.parseFloat s.

Definition lib : GoLib := {|
  ParseFloat := parseSpecial;
  MarshalIndent := Sample.marshal;
  Unmarshal := Sample.unmarshal;
  ExecuteTemplate := Sample.execute;
  ParseGlob := fun _ => None;
  Sprintf_2f := Sample.format_2f;
|}.

End SampleSpecial.

(** * Part II: properties *)

(** ** Float64 comparisons

    The facts about [<] and [<=] on binary64 that the proofs need, obtained
    from the IEEE specification of the primitive operations. *)

Module F64Facts.
Import F64.

Lemma SFcompare_key (x y : spec_float) :
  x <> S754_nan -> y <> S754_nan ->
  exists c, SFcompare x y = Some c /\
    (c = Lt <-> lt3 (key x) (key y)) /\
    (c = Eq <-> key x = key y) /\
    (c = Gt <-> lt3 (key y) (key x)).
Proof.
  intros Hx Hy.
  destruct x as [s|s| |s m e], y as [s'|s'| |s' m' e']; try congruence;
    simpl; try destruct s; try destruct s'; simpl;
    try (eexists; split; [reflexivity|];
         repeat split; intros; try discriminate; try lia; try congruence; fail).
  - exists (match (e ?= e')%Z with Lt => Gt | Gt => Lt
                               | Eq => CompOpp (Pos.compare_cont Eq m m') end).
    split; [reflexivity|].
    rewrite Pos.compare_cont_spec; simpl.
    destruct (Z.compare_spec e e'), (Pos.compare_spec m m'); simpl;
      repeat split; intros; try discriminate; try lia; try congruence;
      try (exfalso; match goal with
                    | H : (_, _, _) = (_, _, _) |- _ => injection H; intros; lia
                    end).
  - exists (match (e ?= e')%Z with Lt => Lt | Gt => Gt
                               | Eq => Pos.compare_cont Eq m m' end).
    split; [reflexivity|].
    rewrite Pos.compare_cont_spec; simpl.
    destruct (Z.compare_spec e e'), (Pos.compare_spec m m'); simpl;
      repeat split; intros; try discriminate; try lia; try congruence;
      try (exfalso; match goal with
                    | H : (_, _, _) = (_, _, _) |- _ => injection H; intros; lia
                    end).
Qed.

Lemma SFcompare_nan_l (y : spec_float) : SFcompare S754_nan y = None.
Proof. reflexivity. Qed.

Lemma SFcompare_nan_r (x : spec_float) : SFcompare x S754_nan = None.
Proof. destruct x as [s|s| |s m e]; reflexivity. Qed.

Lemma is_nan_spec (x : float) : is_nan x = true <-> Prim2SF x = S754_nan.
Proof.
  unfold is_nan, PrimFloat.is_nan. rewrite FloatAxioms.eqb_spec. unfold SFeqb.
  destruct (Prim2SF x) as [s|s| |s m e] eqn:E; simpl.
  - split; discriminate.
  - destruct s; split; discriminate.
  - split; reflexivity.
  - split; [|discriminate].
    destruct s; simpl; rewrite Z.compare_refl, Pos.compare_cont_refl; discriminate.
Qed.

Lemma is_nan_false (x : float) : is_nan x = false <-> Prim2SF x <> S754_nan.
Proof.
  rewrite <- is_nan_spec. destruct (is_nan x); split; congruence.
Qed.

(** [x < y] holds exactly when neither is NaN and the keys are in order. *)
Lemma ltb_true (x y : float) :
  (x <? y) = true <->
  is_nan x = false /\ is_nan y = false /\ lt3 (fkey x) (fkey y).
Proof.
  rewrite FloatAxioms.ltb_spec. unfold SFltb, fkey.
  destruct (is_nan x) eqn:Nx.
  { apply is_nan_spec in Nx. rewrite Nx, SFcompare_nan_l.
    split; [discriminate | intros (H & _); discriminate]. }
  destruct (is_nan y) eqn:Ny.
  { apply is_nan_spec in Ny. rewrite Ny, SFcompare_nan_r.
    split; [discriminate | intros (_ & H & _); discriminate]. }
  apply is_nan_false in Nx, Ny.
  destruct (SFcompare_key _ _ Nx Ny) as (c & -> & HLt & HEq & HGt).
  destruct c; split; try discriminate; try tauto.
  - intros (_ & _ & H). apply HLt in H. discriminate.
  - intros (_ & _ & H). apply HLt in H. discriminate.
Qed.

(** [x <= y] holds exactly when neither is NaN and the keys are in order. *)
Lemma leb_true (x y : float) :
  (x <=? y) = true <->
  is_nan x = false /\ is_nan y = false /\ le3 (fkey x) (fkey y).
Proof.
  rewrite FloatAxioms.leb_spec. unfold SFleb, fkey.
  destruct (is_nan x) eqn:Nx.
  { apply is_nan_spec in Nx. rewrite Nx, SFcompare_nan_l.
    split; [discriminate | intros (H & _); discriminate]. }
  destruct (is_nan y) eqn:Ny.
  { apply is_nan_spec in Ny. rewrite Ny, SFcompare_nan_r.
    split; [discriminate | intros (_ & H & _); discriminate]. }
  apply is_nan_false in Nx, Ny.
  destruct (SFcompare_key _ _ Nx Ny) as (c & -> & HLt & HEq & HGt).
  assert (Hle : le3 (key (Prim2SF x)) (key (Prim2SF y)) <->
                lt3 (key (Prim2SF x)) (key (Prim2SF y)) \/
                key (Prim2SF x) = key (Prim2SF y)).
  { destruct (key (Prim2SF x)) as [[a1 a2] a3], (key (Prim2SF y)) as [[b1 b2] b3].
    unfold le3, lt3. split.
    - intros H. destruct (Z.eq_dec a3 b3) as [->|];
        [destruct (Z.eq_dec a2 b2) as [->|];
           [destruct (Z.eq_dec a1 b1) as [->|]|]|]; try (left; lia).
      right; reflexivity.
    - intros [H|H]; [lia|]. injection H; intros; lia. }
  assert (Hgt : lt3 (key (Prim2SF y)) (key (Prim2SF x)) ->
                ~ le3 (key (Prim2SF x)) (key (Prim2SF y))).
  { destruct (key (Prim2SF x)) as [[a1 a2] a3], (key (Prim2SF y)) as [[b1 b2] b3].
    unfold le3, lt3. lia. }
  destruct c; split; try discriminate; intros H; try (repeat split; tauto).
Qed.

Lemma not_lt3 (a b : Z * Z * Z) : ~ lt3 a b <-> le3 b a.
Proof. destruct a as [[a1 a2] a3], b as [[b1 b2] b3]. unfold lt3, le3. lia. Qed.

Lemma not_le3 (a b : Z * Z * Z) : ~ le3 a b <-> lt3 b a.
Proof. destruct a as [[a1 a2] a3], b as [[b1 b2] b3]. unfold lt3, le3. lia. Qed.

Lemma ltb_false (x y : float) :
  (x <? y) = false <->
  is_nan x = true \/ is_nan y = true \/ le3 (fkey y) (fkey x).
Proof.
  rewrite <- Bool.not_true_iff_false, ltb_true, <- not_lt3.
  destruct (is_nan x), (is_nan y); intuition congruence.
Qed.

Lemma leb_false (x y : float) :
  (x <=? y) = false <->
  is_nan x = true \/ is_nan y = true \/ lt3 (fkey y) (fkey x).
Proof.
  rewrite <- Bool.not_true_iff_false, leb_true, <- not_le3.
  destruct (is_nan x), (is_nan y); intuition congruence.
Qed.

(** NaN compares false with everything. *)
Lemma ltb_nan_l (x y : float) : is_nan x = true -> (x <? y) = false.
Proof. intros N. apply ltb_false. left; exact N. Qed.

Lemma leb_nan_r (x y : float) : is_nan y = true -> (x <=? y) = false.
Proof. intros N. apply leb_false. right; left; exact N. Qed.

(** Away from NaN the comparisons are the comparisons of the keys. *)
Section NotNaN.
Variables x y : float.
Hypothesis Nx : is_nan x = false.
Hypothesis Ny : is_nan y = false.

Lemma ltb_true_nn : (x <? y) = true <-> lt3 (fkey x) (fkey y).
Proof. rewrite ltb_true. tauto. Qed.

Lemma leb_true_nn : (x <=? y) = true <-> le3 (fkey x) (fkey y).
Proof. rewrite leb_true. tauto. Qed.

Lemma ltb_false_nn : (x <? y) = false <-> le3 (fkey y) (fkey x).
Proof. rewrite ltb_false, Nx, Ny. intuition discriminate. Qed.

Lemma leb_false_nn : (x <=? y) = false <-> lt3 (fkey y) (fkey x).
Proof. rewrite leb_false, Nx, Ny. intuition discriminate. Qed.
End NotNaN.

(** [0 < x] excludes [x <= 0]. *)
Lemma gt_zero_not_le (x : float) : (0 <? x) = true -> (x <=? 0) = false.
Proof.
  rewrite ltb_true, leb_false. intros (_ & Nx & H). right; right. exact H.
Qed.

End F64Facts.

(** ** BMI engine *)

(** The constants of the classification, as order keys. *)
Lemma fkey_18_5 : F64.fkey 18.5 = (1, -48, 5207287069147136)%Z.
Proof. reflexivity. Qed.
Lemma fkey_24_9 : F64.fkey 24.9 = (1, -48, 7008726920095334)%Z.
Proof. reflexivity. Qed.
Lemma fkey_25 : F64.fkey 25.0 = (1, -48, 7036874417766400)%Z.
Proof. reflexivity. Qed.
Lemma fkey_29_9 : F64.fkey 29.9 = (1, -48, 8416101803648614)%Z.
Proof. reflexivity. Qed.
Lemma fkey_30 : F64.fkey 30.0 = (1, -48, 8444249301319680)%Z.
Proof. reflexivity. Qed.

(** Where [getBMICategory] answers "Cannot interpret": on NaN, and on the
    values strictly between 24.9 and 25.0 or strictly between 29.9 and 30.0. *)
Lemma getBMICategory_cannot_interpret (bmi : float) :
  getBMICategory bmi = "Cannot interpret" <->
  F64.is_nan bmi = true
  \/ ((24.9 <? bmi) = true /\ (bmi <? 25.0) = true)
  \/ ((29.9 <? bmi) = true /\ (bmi <? 30.0) = true).
Proof.
  unfold getBMICategory.
  destruct (F64.is_nan bmi) eqn:N.
  - rewrite (F64Facts.ltb_nan_l _ _ N), (F64Facts.leb_nan_r 18.5 _ N),
      (F64Facts.leb_nan_r 25.0 _ N), (F64Facts.leb_nan_r 30.0 _ N).
    simpl. split; auto.
  - rewrite !(F64Facts.ltb_true_nn) by (reflexivity || exact N).
    destruct (bmi <? 18.5) eqn:E1;
      [|destruct ((18.5 <=? bmi) && (bmi <=? 24.9)) eqn:E2;
        [|destruct ((25.0 <=? bmi) && (bmi <=? 29.9)) eqn:E3;
          [|destruct (30.0 <=? bmi) eqn:E4]]];
      repeat match goal with
        | H : _ && _ = true |- _ => apply andb_prop in H; destruct H
        | H : _ && _ = false |- _ => apply Bool.andb_false_iff in H
        end;
      rewrite ?F64Facts.ltb_true_nn, ?F64Facts.leb_true_nn, ?F64Facts.ltb_false_nn,
        ?F64Facts.leb_false_nn in * by (reflexivity || exact N);
      rewrite ?fkey_18_5, ?fkey_24_9, ?fkey_25, ?fkey_29_9, ?fkey_30 in *;
      destruct (F64.fkey bmi) as [[k1 k2] k3]; unfold F64.lt3, F64.le3 in *;
      (split; [try discriminate; intros _ | intros G; try reflexivity; exfalso]);
      lia.
Qed.

(** C1 (evaluated where it fails): a BMI of 24.95, which is neither negative
    nor NaN, is given "Cannot interpret" rather than one of the four named
    categories; so is the BMI of 76.4 kg at 1.75 m, and so is 29.95. *)
Theorem getBMICategory_gap :
  (0 <=? 24.95) = true /\ F64.is_nan 24.95 = false /\
  getBMICategory 24.95 = "Cannot interpret" /\
  getBMICategory 29.95 = "Cannot interpret" /\
  (0 <? calculateBMI 76.4 1.75) = true /\
  getBMICategory (calculateBMI 76.4 1.75) = "Cannot interpret".
Proof. repeat split; reflexivity. Qed.

(** C2: for a height above zero [calculateBMI] is the quotient of the weight
    by the squared height; for a height of zero or below it is exactly [0.0],
    which is not NaN, not infinite and not negative. *)
Theorem calculateBMI_spec (w h : float) :
  ((0 <? h) = true -> calculateBMI w h = w / (h * h)) /\
  ((h <=? 0) = true ->
     calculateBMI w h = 0.0 /\
     F64.is_nan (calculateBMI w h) = false /\
     PrimFloat.is_infinity (calculateBMI w h) = false /\
     (calculateBMI w h <? 0) = false /\
     PrimFloat.get_sign (calculateBMI w h) = false).
Proof.
  unfold calculateBMI. split; intros Hh.
  - rewrite (F64Facts.gt_zero_not_le _ Hh). reflexivity.
  - rewrite Hh. repeat split; reflexivity.
Qed.

Lemma calculateBMI_spec_witness :
  calculateBMI 75.5 1.75 = 75.5 / (1.75 * 1.75) /\
  calculateBMI 75.5 (-1.75) = 0.0.
Proof.
  split.
  - apply (proj1 (calculateBMI_spec 75.5 1.75)). reflexivity.
  - apply (proj2 (calculateBMI_spec 75.5 (-1.75))). reflexivity.
Defined.

(** C7: the classification at the boundary values: 18.49 is Underweight,
    18.5 and 24.9 are Normal Weight, 25.0 and 29.9 are Overweight, 30.0 is
    Obesity. *)
Theorem getBMICategory_boundaries :
  getBMICategory 18.49 = "Underweight" /\
  getBMICategory 18.5 = "Normal Weight" /\
  getBMICategory 24.9 = "Normal Weight" /\
  getBMICategory 25.0 = "Overweight" /\
  getBMICategory 29.9 = "Overweight" /\
  getBMICategory 30.0 = "Obesity".
Proof. repeat split; reflexivity. Qed.

(** The two scenarios of the spec: 75.5 kg at 1.75 m and 50 kg at 1.60 m are
    both Normal Weight, with a BMI of about 24.65 and 19.53. *)
Example scenario_normal_weight :
  calculateBMI 75.5 1.75 = 24.653061224489797 /\
  getBMICategory (calculateBMI 75.5 1.75) = "Normal Weight" /\
  calculateBMI 50 1.60 = 19.531249999999996 /\
  getBMICategory (calculateBMI 50 1.60) = "Normal Weight".
Proof. repeat split; reflexivity. Qed.

(** ** Record store and handlers *)

Lemma State_eta (s : State) : mkState (users s) (disk s) (logs s) = s.
Proof. destruct s; reflexivity. Qed.

(** A header written on a fresh writer is the status of the response. *)
Lemma http_Error_status (w : ResponseWriter) (msg : string) (code : Z) :
  status w = None ->
  status (http_Error w msg code) = Some code /\
  body (http_Error w msg code) = body w +:+ msg +:+ String "010"%char "".
Proof.
  intros Hw. unfold http_Error, w_Write, WriteHeader, Header_Set; simpl.
  rewrite Hw; simpl. split; reflexivity.
Qed.

Lemma http_Redirect_status (w : ResponseWriter) (r : Request) (url : string)
  (code : Z) :
  status w = None ->
  status (http_Redirect w r url code) = Some code /\
  header (http_Redirect w r url code) !! "Location" = Some url /\
  body (http_Redirect w r url code) = body w.
Proof.
  intros Hw. unfold http_Redirect, WriteHeader, Header_Set; simpl.
  rewrite Hw; simpl. repeat split. apply lookup_insert_eq.
Qed.

(** [os.WriteFile] changes the disk only when it succeeds. *)
Lemma os_WriteFile_error (d d' : Disk) (name : string) (data : bytes) (e : errno) :
  os_WriteFile d name data = (d', Some e) -> d' = d.
Proof.
  unfold os_WriteFile. destruct (readonly d).
  - intros [= <- _]. reflexivity.
  - destruct (nodes d !! name) as [[?|]|]; intros [= <- ?] || intros [=].
    all: reflexivity.
Qed.

Lemma os_WriteFile_ok (d d' : Disk) (name : string) (data : bytes) :
  os_WriteFile d name data = (d', None) ->
  readonly d = false /\
  nodes d !! name <> Some Directory /\
  d' = mkDisk (<[name := RegularFile data]> (nodes d)) false.
Proof.
  unfold os_WriteFile. destruct (readonly d) eqn:R; [intros [=]|].
  destruct (nodes d !! name) as [[?|]|]; intros [= <-] || intros [=];
    repeat split; congruence.
Qed.

Section ProgramFacts.
Context `{GoLib}.

(** [saveUserData] always returns; it touches neither the records nor the
    log, and the disk only when it succeeds. *)
Lemma saveUserData_returns (s : State) :
  exists err s',
    saveUserData s = Done err s' /\ users s' = users s /\ logs s' = logs s /\
    (err <> None -> s' = s).
Proof.
  unfold saveUserData, bind, gets, set_disk, ret; simpl.
  destruct (MarshalIndent (users s)) as [jsonData [e|]].
  - eexists _, _. repeat split; reflexivity.
  - destruct (os_WriteFile (disk s) dataFile jsonData) as [d' [e|]] eqn:W; simpl.
    + apply os_WriteFile_error in W. subst d'.
      eexists _, _. repeat split; try reflexivity. intros _. apply State_eta.
    + eexists _, _. repeat split; try reflexivity. congruence.
Qed.

Lemma saveUserData_failed (s s' : State) (e : string) :
  saveUserData s = Done (Some e) s' -> s' = s.
Proof.
  intros Hs. destruct (saveUserData_returns s) as (err & s'' & Hr & _ & _ & Hf).
  rewrite Hr in Hs. injection Hs as -> ->. apply Hf. discriminate.
Qed.

(** [calculateHandler] on a POST whose form was parsed, by the outcome of
    the test. *)
Lemma calculateHandler_post (w : ResponseWriter) (r : Request) (s : State) :
  Method r = MethodPost -> ParseFormErr r = None ->
  calculateHandler w r s =
    if rejected r then Done (http_Error w invalidInputMessage StatusBadRequest) s
    else
      match saveUserData (mkState (users s ++ [newUserOf r]) (disk s) (logs s)) with
      | Done (Some e) s' =>
          Done (http_Redirect w r "/?status=success" StatusSeeOther)
            (mkState (users s') (disk s') (logs s' ++ ["Failed to save data: " +:+ e]))
      | Done None s' =>
          Done (http_Redirect w r "/?status=success" StatusSeeOther) s'
      | Panic msg s' => Panic msg s'
      | Exit code s' => Exit code s'
      end.
Proof.
  intros Hm Hf. unfold calculateHandler, rejected, newUserOf.
  rewrite Hm, String.eqb_refl, Hf; simpl.
  destruct (ParseFloat (FormValue r "weight")) as [weightKg errW].
  destruct (ParseFloat (FormValue r "height")) as [heightM errH]; simpl.
  destruct (bool_decide (errW <> None) || bool_decide (errH <> None)
            || (weightKg <=? 0) || (heightM <=? 0)); [reflexivity|].
  unfold bind, gets, set_users, log_Printf, ret; simpl.
  destruct (saveUserData _) as [[e|] s'|msg s'|code s']; reflexivity.
Qed.

End ProgramFacts.

Section HandlerProperties.
Context `{GoLib}.

Lemma rejected_spec (r : Request) (weightKg heightM : float) (errW errH : error) :
  ParseFloat (FormValue r "weight") = (weightKg, errW) ->
  ParseFloat (FormValue r "height") = (heightM, errH) ->
  rejected r = true <->
  errW <> None \/ errH <> None \/ (weightKg <=? 0) = true \/ (heightM <=? 0) = true.
Proof.
  intros HW HH. unfold rejected. rewrite HW, HH.
  rewrite !orb_true_iff, !bool_decide_eq_true. tauto.
Qed.

Lemma newUserOf_spec (r : Request) (weightKg heightM : float) (errW errH : error) :
  ParseFloat (FormValue r "weight") = (weightKg, errW) ->
  ParseFloat (FormValue r "height") = (heightM, errH) ->
  newUserOf r =
    mkUser (FormValue r "name") weightKg heightM (calculateBMI weightKg heightM)
      (getBMICategory (calculateBMI weightKg heightM)).
Proof. intros HW HH. unfold newUserOf. rewrite HW, HH. reflexivity. Qed.

(** X14: a POST to /calculate whose weight or height [ParseFloat] refuses, or
    parses to a value that is zero or below, is answered 400 and the state (records,
    disk, log) is left as it was; the body is the message asking for valid
    positive numbers (when the form itself did not parse, step 1 has answered
    400 with its own message).  Values that parse and are above zero are
    accepted whatever their size, the answer being the redirect. *)
Theorem calculateHandler_invalid_input
  (w : ResponseWriter) (r : Request) (s : State)
  (weightKg heightM : float) (errW errH : error) :
  Method r = MethodPost ->
  ParseFloat (FormValue r "weight") = (weightKg, errW) ->
  ParseFloat (FormValue r "height") = (heightM, errH) ->
  (errW <> None \/ errH <> None \/
   (weightKg <=? 0) = true \/ (heightM <=? 0) = true ->
   exists w',
     calculateHandler w r s = Done w' s /\
     (status w = None -> status w' = Some 400%Z) /\
     (ParseFormErr r = None ->
      w' = http_Error w invalidInputMessage StatusBadRequest /\
      (status w = None ->
       body w' = body w +:+ invalidInputMessage +:+ String "010"%char ""))) /\
  (ParseFormErr r = None -> errW = None -> errH = None ->
   (0 <? weightKg) = true -> (0 <? heightM) = true ->
   exists s',
     calculateHandler w r s
       = Done (http_Redirect w r "/?status=success" StatusSeeOther) s' /\
     users s' = users s ++ [newUserOf r]).
Proof.
  intros Hm HW HH.
  pose proof (rejected_spec r _ _ _ _ HW HH) as Hrej.
  split.
  - intros Hbad. destruct (ParseFormErr r) as [e|] eqn:Hf.
    + exists (http_Error w ("Error parsing form data: " +:+ e) StatusBadRequest).
      split; [|split].
      * unfold calculateHandler. rewrite Hm, String.eqb_refl, Hf. reflexivity.
      * intros Hw. exact (proj1 (http_Error_status w _ _ Hw)).
      * discriminate.
    + exists (http_Error w invalidInputMessage StatusBadRequest).
      rewrite (calculateHandler_post w r s Hm Hf).
      apply Hrej in Hbad. rewrite Hbad. split; [reflexivity|].
      split; [intros Hw; exact (proj1 (http_Error_status w _ _ Hw))|].
      intros _. split; [reflexivity|].
      intros Hw. exact (proj2 (http_Error_status w _ _ Hw)).
  - intros Hf -> -> Pw Ph. rewrite (calculateHandler_post w r s Hm Hf).
    apply F64Facts.gt_zero_not_le in Pw, Ph.
    destruct (rejected r) eqn:R.
    { destruct (proj1 Hrej eq_refl) as [R'|[R'|[R'|R']]]; congruence. }
    destruct (saveUserData_returns
                (mkState (users s ++ [newUserOf r]) (disk s) (logs s)))
      as (err & s' & -> & Hu & _ & _).
    destruct err as [e|]; eexists; split; try reflexivity; simpl; exact Hu.
Qed.

(** C4: on a valid POST to /calculate for which [saveUserData] fails, the
    failure is logged, the appended record stays in memory, and the answer is
    the redirect to the page with the success indicator. *)
Theorem calculateHandler_save_failure
  (w : ResponseWriter) (r : Request) (s s2 : State)
  (weightKg heightM : float) (e : string) :
  Method r = MethodPost -> ParseFormErr r = None ->
  ParseFloat (FormValue r "weight") = (weightKg, None) ->
  ParseFloat (FormValue r "height") = (heightM, None) ->
  (0 <? weightKg) = true -> (0 <? heightM) = true ->
  let newUser :=
    mkUser (FormValue r "name") weightKg heightM (calculateBMI weightKg heightM)
      (getBMICategory (calculateBMI weightKg heightM)) in
  saveUserData (mkState (users s ++ [newUser]) (disk s) (logs s))
    = Done (Some e) s2 ->
  calculateHandler w r s
    = Done (http_Redirect w r "/?status=success" StatusSeeOther)
        (mkState (users s ++ [newUser]) (disk s)
           (logs s ++ ["Failed to save data: " +:+ e])) /\
  (status w = None ->
   status (http_Redirect w r "/?status=success" StatusSeeOther) = Some 303%Z /\
   header (http_Redirect w r "/?status=success" StatusSeeOther) !! "Location"
     = Some "/?status=success").
Proof.
  intros Hm Hf HW HH Pw Ph newUser Hsave.
  rewrite (calculateHandler_post w r s Hm Hf).
  pose proof (rejected_spec r _ _ _ _ HW HH) as Hrej.
  apply F64Facts.gt_zero_not_le in Pw, Ph.
  destruct (rejected r) eqn:R.
  { destruct (proj1 Hrej eq_refl) as [R'|[R'|[R'|R']]]; congruence. }
  rewrite (newUserOf_spec r _ _ _ _ HW HH). fold newUser.
  rewrite Hsave. apply saveUserData_failed in Hsave. subst s2. simpl.
  split; [reflexivity|].
  intros Hw. destruct (http_Redirect_status w r "/?status=success" StatusSeeOther Hw)
    as (Hs & Hl & _).
  split; assumption.
Qed.

(** C9: a request to /calculate whose method is not POST is answered 405
    "Method not allowed"; the state is left as it was, and neither the form of
    the request nor any library call enters the answer. *)
Theorem calculateHandler_method_not_allowed
  (w : ResponseWriter) (r : Request) (s : State) :
  Method r <> MethodPost ->
  calculateHandler w r s
    = Done (http_Error w "Method not allowed" StatusMethodNotAllowed) s /\
  (status w = None ->
   status (http_Error w "Method not allowed" StatusMethodNotAllowed)
     = Some 405%Z).
Proof.
  intros Hm. unfold calculateHandler.
  apply String.eqb_neq in Hm. rewrite Hm. cbn [negb].
  split; [reflexivity|]. intros Hw. exact (proj1 (http_Error_status w _ _ Hw)).
Qed.

End HandlerProperties.

Section StoreProperties.
Context `{GoLib}.

Lemma loadUserData_absent (s : State) :
  nodes (disk s) !! dataFile = None ->
  loadUserData s = Done tt (mkState [] (disk s) (logs s ++ [missingNote])).
Proof.
  intros Hn. unfold loadUserData, bind, gets, os_ReadFile. rewrite Hn. reflexivity.
Qed.

Lemma loadUserData_present (s : State) (data : bytes) :
  nodes (disk s) !! dataFile = Some (RegularFile data) ->
  loadUserData s =
    match Unmarshal data (users s) with
    | (us', Some e) =>
        Exit 1 (mkState us' (disk s)
                  (logs s ++ ["Error unmarshalling JSON data: " +:+ e]))
    | (us', None) =>
        Done tt (mkState us' (disk s)
                   (logs s ++ ["Loaded " +:+ pretty (length us')
                               +:+ " user records from " +:+ dataFile +:+ "."]))
    end.
Proof.
  intros Hn. unfold loadUserData, bind, gets, os_ReadFile. rewrite Hn.
  destruct (Unmarshal data (users s)) as [us' [e|]]; reflexivity.
Qed.

(** C5: when the persisted file is absent, [loadUserData] returns with an
    empty record set (and a note in the log); when the file is there and does
    not decode, the process exits with status 1, in [loadUserData] and so in
    [main], which serves no request. *)
Theorem loadUserData_startup (s : State) :
  (nodes (disk s) !! dataFile = None ->
   loadUserData s = Done tt (mkState [] (disk s) (logs s ++ [missingNote]))) /\
  (forall (data : bytes) (us' : list User) (e : string),
     nodes (disk s) !! dataFile = Some (RegularFile data) ->
     Unmarshal data (users s) = (us', Some e) ->
     let dead := mkState us' (disk s)
                   (logs s ++ ["Error unmarshalling JSON data: " +:+ e]) in
     loadUserData s = Exit 1 dead /\
     forall rs : list Request, main rs s = Exit 1 dead).
Proof.
  split.
  - apply loadUserData_absent.
  - intros data us' e Hn Hu dead.
    assert (Hl : loadUserData s = Exit 1 dead).
    { rewrite (loadUserData_present s data Hn), Hu. reflexivity. }
    split; [exact Hl|].
    intros rs. unfold main, bind at 1. rewrite Hl. reflexivity.
Qed.

End StoreProperties.

Section ServerProperties.
Context `{GoLib}.

Lemma extends_refl (s s' : State) : users s' = users s -> extends s s'.
Proof. intros E. exists []. rewrite app_nil_r. split; [exact E|constructor]. Qed.

Lemma newUserOf_consistent (r : Request) : consistent (newUserOf r).
Proof. split; reflexivity. Qed.

Lemma calculateHandler_extends (w : ResponseWriter) (r : Request) (s : State) :
  exists w' s', calculateHandler w r s = Done w' s' /\ extends s s'.
Proof.
  destruct (String.eqb (Method r) MethodPost) eqn:Hm.
  2:{ unfold calculateHandler. rewrite Hm. eexists _, _.
      split; [reflexivity|]. apply extends_refl; reflexivity. }
  apply String.eqb_eq in Hm.
  destruct (ParseFormErr r) as [e|] eqn:Hf.
  { unfold calculateHandler. rewrite Hm, String.eqb_refl, Hf. eexists _, _.
    split; [reflexivity|]. apply extends_refl; reflexivity. }
  rewrite (calculateHandler_post w r s Hm Hf).
  destruct (rejected r).
  { eexists _, _. split; [reflexivity|]. apply extends_refl; reflexivity. }
  destruct (saveUserData_returns
              (mkState (users s ++ [newUserOf r]) (disk s) (logs s)))
    as (err & s' & -> & Hu & _ & _).
  assert (Hext : forall s'', users s'' = users s' -> extends s s'').
  { intros s'' E. exists [newUserOf r]. rewrite E, Hu. split; [reflexivity|].
    constructor; [apply newUserOf_consistent|constructor]. }
  destruct err as [e|]; eexists _, _; (split; [reflexivity|]);
    apply Hext; reflexivity.
Qed.

Lemma indexHandler_state (w : ResponseWriter) (r : Request) (s : State) :
  exists w', indexHandler w r s = Done w' s.
Proof.
  unfold indexHandler, bind, gets, ret.
  destruct (ExecuteTemplate w _) as [w' [e|]]; eexists; reflexivity.
Qed.

Lemma rootHandler_state (w : ResponseWriter) (r : Request) (s : State) :
  state_of (rootHandler w r s) = s.
Proof.
  unfold rootHandler.
  destruct (String.eqb (Values_Get (URLQuery r) "status") "success").
  - unfold bind, gets, index, panic, ret.
    destruct (len (users s) - 1 <? 0)%Z; [reflexivity|].
    destruct (users s !! Z.to_nat (len (users s) - 1)) as [u|]; [|reflexivity].
    destruct (ExecuteTemplate w _) as [w' [e|]]; reflexivity.
  - destruct (indexHandler_state w r s) as (w' & ->). reflexivity.
Qed.

Lemma rootHandler_no_exit (w : ResponseWriter) (r : Request) (s : State)
  (code : Z) (s' : State) :
  rootHandler w r s <> Exit code s'.
Proof.
  unfold rootHandler.
  destruct (String.eqb (Values_Get (URLQuery r) "status") "success").
  - unfold bind, gets, index, panic, ret.
    destruct (len (users s) - 1 <? 0)%Z; [discriminate|].
    destruct (users s !! Z.to_nat (len (users s) - 1)) as [u|]; [|discriminate].
    destruct (ExecuteTemplate w _) as [w' [e|]]; discriminate.
  - destruct (indexHandler_state w r s) as (w' & ->). discriminate.
Qed.

Lemma serveHTTP_extends (r : Request) (s : State) :
  exists w s', serveHTTP r s = Done w s' /\ extends s s'.
Proof.
  unfold serveHTTP, route.
  destruct (String.eqb (Path r) "/calculate").
  - destruct (calculateHandler_extends newResponseWriter r s)
      as (w' & s' & -> & Hext).
    eexists _, _. split; [reflexivity|exact Hext].
  - pose proof (rootHandler_state newResponseWriter r s) as Hs.
    pose proof (rootHandler_no_exit newResponseWriter r s) as Hx.
    destruct (rootHandler newResponseWriter r s) as [w' s'|msg s'|code s'];
      simpl in Hs; subst s'.
    + eexists _, _. split; [reflexivity|]. apply extends_refl; reflexivity.
    + eexists _, _. split; [reflexivity|]. apply extends_refl; reflexivity.
    + exfalso. eapply Hx. reflexivity.
Qed.

Lemma serve_extends (rs : list Request) (s : State) :
  exists ws s', serve rs s = Done ws s' /\ length ws = length rs /\ extends s s'.
Proof.
  revert s. induction rs as [|r rs IH]; intros s.
  - exists [], s. repeat split. apply extends_refl; reflexivity.
  - destruct (serveHTTP_extends r s) as (w & s1 & Hr & (a1 & E1 & F1)).
    destruct (IH s1) as (ws & s2 & Hrs & Hlen & (a2 & E2 & F2)).
    exists (w :: ws), s2.
    simpl. unfold bind. rewrite Hr, Hrs. unfold ret.
    rewrite Hlen. repeat split.
    exists (a1 ++ a2). rewrite E2, E1, app_assoc. split; [reflexivity|].
    apply Forall_app; split; assumption.
Qed.

(** [loadUserData] returns or exits with status 1; it does not panic. *)
Lemma loadUserData_outcome (s : State) :
  (exists s0, loadUserData s = Done tt s0) \/
  (exists s0, loadUserData s = Exit 1 s0).
Proof.
  unfold loadUserData, bind, gets.
  destruct (os_ReadFile (disk s) dataFile) as [data [e|]].
  - destruct (IsNotExist e); [left|right]; eexists; reflexivity.
  - simpl. destruct (Unmarshal data (users s)) as [us' [e|]]; simpl;
      [right|left]; eexists; reflexivity.
Qed.

(** C6: whatever requests the server handles, it answers each of them and the
    record set only grows at its end: the records already there stay as they
    are and in place, and every record added has the BMI computed from its
    weight and height and the category computed from that BMI.  So it is for
    the whole run of [main]: it exits at startup with status 1, or it serves
    every request and ends with the records loaded at startup followed by such
    records. *)
Theorem serve_append_only (rs : list Request) (s : State) :
  (exists (ws : list (option ResponseWriter)) (s' : State) (added : list User),
     serve rs s = Done ws s' /\
     length ws = length rs /\
     users s' = users s ++ added /\
     Forall (fun u =>
               BMI u = calculateBMI (WeightKg u) (HeightM u) /\
               Category u = getBMICategory (BMI u)) added) /\
  match main rs s with
  | Done ws s' =>
      exists (s0 : State) (added : list User),
        loadUserData s = Done tt s0 /\
        length ws = length rs /\
        users s' = users s0 ++ added /\
        Forall (fun u =>
                  BMI u = calculateBMI (WeightKg u) (HeightM u) /\
                  Category u = getBMICategory (BMI u)) added
  | Exit code _ => code = 1%Z
  | Panic _ _ => False
  end.
Proof.
  split.
  - destruct (serve_extends rs s) as (ws & s' & Hs & Hlen & (added & E & F)).
    exists ws, s', added. repeat split; assumption.
  - unfold main, bind at 1.
    destruct (loadUserData_outcome s) as [(s0 & L)|(s0 & L)]; rewrite L;
      [|reflexivity].
    unfold bind, gets, log_Fatalf, log_Printf, ret.
    destruct (ParseGlob (disk s0)) as [e|]; [reflexivity|].
    destruct (serve_extends rs
                (mkState (users s0) (disk s0)
                   (logs s0 ++ ["Starting web server on http://localhost:8080"])))
      as (ws & s' & Hs & Hlen & (added & E & F)).
    simpl in Hs |- *. rewrite Hs.
    exists s0, added. repeat split; assumption.
Qed.

(** C10: on a request for the page with [status=success], the handler indexes
    the last record without a test: with no record it panics on the index
    [-1] (and the server drops the connection); with at least one record the
    message names the last record and its BMI. *)
Theorem rootHandler_success_indexes_last
  (w : ResponseWriter) (r : Request) (s : State) :
  Values_Get (URLQuery r) "status" = "success" ->
  (users s = [] ->
   rootHandler w r s = Panic "runtime error: index out of range [-1]" s /\
   (Path r <> "/calculate" ->
    exists s', serveHTTP r s = Done None s' /\ users s' = [])) /\
  (forall (us : list User) (u : User),
     users s = us ++ [u] ->
     rootHandler w r s =
       let res := ExecuteTemplate w
                    (mkViewModel (us ++ [u]) (successMessage (Name u) (BMI u))) in
       Done match snd res with
            | Some e =>
                http_Error (fst res) ("Error rendering template: " +:+ e)
                  StatusInternalServerError
            | None => fst res
            end s).
Proof.
  intros Hq. split.
  - intros Hu.
    assert (Hp : forall w0, rootHandler w0 r s
                   = Panic "runtime error: index out of range [-1]" s).
    { intros w0. unfold rootHandler. rewrite Hq, String.eqb_refl.
      unfold bind, gets. rewrite Hu. reflexivity. }
    split; [apply Hp|].
    intros Hpath. apply String.eqb_neq in Hpath.
    unfold serveHTTP, route. rewrite Hpath, Hp.
    eexists. split; [reflexivity|exact Hu].
  - intros us u Hu. unfold rootHandler. rewrite Hq, String.eqb_refl.
    unfold bind, gets, index. rewrite Hu.
    assert (Hlen : (len (us ++ [u]) - 1)%Z = Z.of_nat (length us)).
    { unfold len. rewrite length_app. simpl. lia. }
    rewrite Hlen.
    destruct (Z.ltb_spec (Z.of_nat (length us)) 0); [lia|].
    rewrite Nat2Z.id.
    assert (Hlk : (us ++ [u]) !! length us = Some u).
    { rewrite lookup_app_r by lia. rewrite Nat.sub_diag. reflexivity. }
    rewrite Hlk. unfold ret.
    destruct (ExecuteTemplate w _) as [w' [e|]]; reflexivity.
Qed.

End ServerProperties.

(** ** Float64 arithmetic: signs and NaN

    What the IEEE specification of [*] and [/] gives for the sign of a result
    and for NaN. *)

Module F64Arith.

Lemma shr_1_nonneg (mrs : shr_record) :
  (0 <= shr_m mrs)%Z -> (0 <= shr_m (shr_1 mrs))%Z.
Proof.
  destruct mrs as [m r s]. simpl.
  destruct m as [|p|p]; [| destruct p | destruct p]; simpl; lia.
Qed.

Lemma iter_pos_shr_1_nonneg (p : positive) (mrs : shr_record) :
  (0 <= shr_m mrs)%Z -> (0 <= shr_m (SpecFloat.iter_pos shr_1 p mrs))%Z.
Proof.
  revert mrs. induction p as [p IH|p IH|]; intros mrs Hm; simpl.
  - apply IH, IH, shr_1_nonneg, Hm.
  - apply IH, IH, Hm.
  - apply shr_1_nonneg, Hm.
Qed.

Lemma shr_fexp_nonneg (pr em m e : Z) (l : location) :
  (0 <= m)%Z -> (0 <= shr_m (fst (shr_fexp pr em m e l)))%Z.
Proof.
  intros Hm. unfold shr_fexp, shr.
  assert (H0 : (0 <= shr_m (shr_record_of_loc m l))%Z).
  { destruct l as [|[]]; simpl; exact Hm. }
  destruct (fexp pr em (Zdigits2 m + e) - e)%Z; simpl; auto.
  apply iter_pos_shr_1_nonneg, H0.
Qed.

Lemma round_nearest_even_nonneg (m : Z) (l : location) :
  (0 <= m)%Z -> (0 <= round_nearest_even m l)%Z.
Proof.
  intros Hm. unfold round_nearest_even.
  destruct l as [|[]]; try destruct (Z.even m); lia.
Qed.

Lemma binary_round_aux_clear (pr em m e : Z) (l : location) :
  sign_clear (binary_round_aux pr em false m e l).
Proof.
  unfold binary_round_aux.
  destruct (shr_fexp pr em m e l) as [mrs' e'].
  destruct (shr_fexp pr em _ e' loc_Exact) as [mrs'' e''].
  destruct (shr_m mrs'') as [|p|p]; simpl; auto.
  destruct (e'' <=? em - pr)%Z; reflexivity.
Qed.

Lemma binary_round_aux_not_nan (pr em : Z) (s : bool) (m e : Z) (l : location) :
  (0 <= m)%Z -> binary_round_aux pr em s m e l <> S754_nan.
Proof.
  intros Hm. unfold binary_round_aux.
  pose proof (shr_fexp_nonneg pr em m e l Hm) as H1.
  destruct (shr_fexp pr em m e l) as [mrs' e']. simpl in H1.
  pose proof (shr_fexp_nonneg pr em _ e' loc_Exact
                (round_nearest_even_nonneg _ (loc_of_shr_record mrs') H1)) as H2.
  destruct (shr_fexp pr em _ e' loc_Exact) as [mrs'' e'']. simpl in H2.
  destruct (shr_m mrs'') as [|p|p]; try discriminate; [|lia].
  destruct (e'' <=? em - pr)%Z; discriminate.
Qed.

Lemma SFdiv_core_binary_nonneg (pr em : Z) (m1 : positive) (e1 : Z) (m2 : positive) (e2 : Z) :
  (0 <= fst (fst (SFdiv_core_binary pr em (Z.pos m1) e1 (Z.pos m2) e2)))%Z.
Proof.
  unfold SFdiv_core_binary.
  set (s := (e1 - e2 - _)%Z).
  set (m' := match s with Z.pos _ => Z.shiftl (Z.pos m1) s | 0%Z => Z.pos m1 | Z.neg _ => 0%Z end).
  assert (Hm' : (0 <= m')%Z).
  { unfold m'. destruct s; try lia. apply Z.shiftl_nonneg. lia. }
  pose proof (Z_div_mod m' (Z.pos m2) ltac:(lia)) as Hdm.
  destruct (Z.div_eucl m' (Z.pos m2)) as [q r]. simpl.
  destruct Hdm as [Heq Hr]. nia.
Qed.

Lemma Prim2SF_pos (x : float) :
  (0 <? x) = true ->
  Prim2SF x = S754_infinity false \/
  exists m e, Prim2SF x = S754_finite false m e.
Proof.
  rewrite FloatAxioms.ltb_spec. unfold SFltb.
  change (Prim2SF 0) with (S754_zero false).
  destruct (Prim2SF x) as [s|s| |s m e]; simpl; try discriminate.
  - destruct s; [discriminate|]. left; reflexivity.
  - destruct s; [discriminate|]. right; eauto.
Qed.

Lemma Prim2SF_lt_infinity (x : float) :
  (x <? infinity) = true ->
  Prim2SF x <> S754_infinity false /\ Prim2SF x <> S754_nan.
Proof.
  rewrite FloatAxioms.ltb_spec. unfold SFltb.
  change (Prim2SF infinity) with (S754_infinity false).
  destruct (Prim2SF x) as [s|s| |s m e]; simpl; try discriminate;
    try (split; discriminate).
  destruct s; [split; discriminate|discriminate].
Qed.

Lemma zero_leb (x : float) :
  sign_clear (Prim2SF x) -> Prim2SF x <> S754_nan -> (0 <=? x) = true.
Proof.
  rewrite FloatAxioms.leb_spec. unfold SFleb.
  change (Prim2SF 0) with (S754_zero false).
  destruct (Prim2SF x) as [s|s| |s m e]; simpl; intros Hs Hn;
    try congruence; subst s; reflexivity.
Qed.

Lemma ltb_zero_clear (x : float) :
  sign_clear (Prim2SF x) -> (x <? 0) = false.
Proof.
  rewrite FloatAxioms.ltb_spec. unfold SFltb.
  change (Prim2SF 0) with (S754_zero false).
  destruct (Prim2SF x) as [s|s| |s m e]; simpl; intros Hs;
    try reflexivity; subst s; reflexivity.
Qed.

(** The square of a value above zero: its sign is clear and it is not NaN. *)
Lemma square_pos (h : float) :
  (0 <? h) = true ->
  sign_clear (Prim2SF (h * h)) /\ Prim2SF (h * h) <> S754_nan.
Proof.
  intros Hh. rewrite FloatAxioms.mul_spec. unfold SF64mul.
  destruct (Prim2SF_pos h Hh) as [->|(m & e & ->)]; simpl.
  - split; [reflexivity|discriminate].
  - split; [apply binary_round_aux_clear|].
    apply binary_round_aux_not_nan. lia.
Qed.

(** A quotient whose dividend is above zero and whose divisor has a clear
    sign has a clear sign; it is NaN only if the dividend is infinite or the
    divisor NaN. *)
Lemma quotient_pos (w d : float) :
  (0 <? w) = true -> sign_clear (Prim2SF d) ->
  sign_clear (Prim2SF (w / d)) /\
  (Prim2SF w <> S754_infinity false -> Prim2SF d <> S754_nan ->
   Prim2SF (w / d) <> S754_nan).
Proof.
  intros Hw Hd. rewrite FloatAxioms.div_spec. unfold SF64div.
  destruct (Prim2SF_pos w Hw) as [->|(m & e & ->)];
    destruct (Prim2SF d) as [s|s| |s m' e']; simpl in Hd |- *;
    try subst s; simpl; try (split; [reflexivity|congruence]).
  pose proof (SFdiv_core_binary_nonneg prec emax m e m' e') as Hq.
  destruct (SFdiv_core_binary prec emax (Z.pos m) e (Z.pos m') e')
    as [[mz ez] lz]. simpl in Hq.
  split; [apply binary_round_aux_clear|].
  intros _ _. apply binary_round_aux_not_nan, Hq.
Qed.

(** NaN in, NaN out. *)
Lemma div_nan_l (x y : float) : F64.is_nan x = true -> x / y = nan.
Proof.
  intros Hx. apply F64Facts.is_nan_spec in Hx. apply Prim2SF_inj.
  rewrite FloatAxioms.div_spec, Hx. reflexivity.
Qed.

Lemma div_nan_r (x y : float) : F64.is_nan y = true -> x / y = nan.
Proof.
  intros Hy. apply F64Facts.is_nan_spec in Hy. apply Prim2SF_inj.
  rewrite FloatAxioms.div_spec, Hy.
  destruct (Prim2SF x) as [s|s| |s m e]; reflexivity.
Qed.

Lemma leb_nan_l (x y : float) : F64.is_nan x = true -> (x <=? y) = false.
Proof. intros N. apply F64Facts.leb_false. left; exact N. Qed.

Lemma mul_nan (x : float) : F64.is_nan x = true -> F64.is_nan (x * x) = true.
Proof.
  intros Hx. apply F64Facts.is_nan_spec in Hx. apply F64Facts.is_nan_spec.
  rewrite FloatAxioms.mul_spec, Hx. reflexivity.
Qed.

End F64Arith.

(** ** BMI engine, continued *)

(** X1: [getBMICategory] on every float64.  Each named category is returned
    on exactly its bracket (the cases of the switch exclude one another,
    whatever their order; everything below 18.5, negative numbers and [-Inf]
    included, is Underweight), and "Cannot interpret" is returned exactly on
    NaN and strictly between 24.9 and 25.0 or 29.9 and 30.0. *)
Theorem getBMICategory_brackets (bmi : float) :
  (getBMICategory bmi = "Underweight" <-> (bmi <? 18.5) = true) /\
  (getBMICategory bmi = "Normal Weight" <->
     (18.5 <=? bmi) = true /\ (bmi <=? 24.9) = true) /\
  (getBMICategory bmi = "Overweight" <->
     (25.0 <=? bmi) = true /\ (bmi <=? 29.9) = true) /\
  (getBMICategory bmi = "Obesity" <-> (30.0 <=? bmi) = true) /\
  (getBMICategory bmi = "Cannot interpret" <->
     F64.is_nan bmi = true
     \/ ((24.9 <? bmi) = true /\ (bmi <? 25.0) = true)
     \/ ((29.9 <? bmi) = true /\ (bmi <? 30.0) = true)).
Proof.
  pose proof (getBMICategory_cannot_interpret bmi) as Hci.
  cut ((getBMICategory bmi = "Underweight" <-> (bmi <? 18.5) = true) /\
       (getBMICategory bmi = "Normal Weight" <->
          (18.5 <=? bmi) = true /\ (bmi <=? 24.9) = true) /\
       (getBMICategory bmi = "Overweight" <->
          (25.0 <=? bmi) = true /\ (bmi <=? 29.9) = true) /\
       (getBMICategory bmi = "Obesity" <-> (30.0 <=? bmi) = true));
    [tauto|]. clear Hci.
  unfold getBMICategory.
  destruct (F64.is_nan bmi) eqn:N.
  - rewrite (F64Facts.ltb_nan_l _ _ N), (F64Facts.leb_nan_r 18.5 _ N),
      (F64Facts.leb_nan_r 25.0 _ N), (F64Facts.leb_nan_r 30.0 _ N),
      (F64Arith.leb_nan_l _ 24.9 N), (F64Arith.leb_nan_l _ 29.9 N).
    simpl. repeat split; intros; intuition discriminate.
  - destruct (bmi <? 18.5) eqn:E1, (18.5 <=? bmi) eqn:E2, (bmi <=? 24.9) eqn:E3,
      (25.0 <=? bmi) eqn:E4, (bmi <=? 29.9) eqn:E5, (30.0 <=? bmi) eqn:E6;
      simpl;
      try (repeat split; intros; intuition discriminate; fail);
      exfalso;
      rewrite ?F64Facts.ltb_true_nn, ?F64Facts.leb_true_nn, ?F64Facts.ltb_false_nn,
        ?F64Facts.leb_false_nn in * by (reflexivity || exact N);
      rewrite ?fkey_18_5, ?fkey_24_9, ?fkey_25, ?fkey_29_9, ?fkey_30 in *;
      destruct (F64.fkey bmi) as [[k1 k2] k3]; unfold F64.lt3, F64.le3 in *;
      lia.
Qed.

(** X2: for a weight and a height above zero the BMI is never below zero, and
    for a finite weight it is at least zero: not NaN (it may be [+Inf]). *)
Theorem calculateBMI_positive_inputs (w h : float) :
  (0 <? w) = true -> (0 <? h) = true ->
  (calculateBMI w h <? 0) = false /\
  ((w <? infinity) = true -> (0 <=? calculateBMI w h) = true).
Proof.
  intros Hw Hh. unfold calculateBMI.
  rewrite (F64Facts.gt_zero_not_le _ Hh).
  destruct (F64Arith.square_pos h Hh) as [Hs Hn].
  destruct (F64Arith.quotient_pos w (h * h) Hw Hs) as [Hq Hqn].
  split; [apply F64Arith.ltb_zero_clear, Hq|].
  intros Hfin. apply F64Arith.zero_leb; [exact Hq|].
  apply Hqn; [|exact Hn].
  apply (F64Arith.Prim2SF_lt_infinity w Hfin).
Qed.

(** A NaN height, or a NaN weight with a height that is not zero or below,
    gives a NaN BMI. *)
Lemma calculateBMI_nan (w h : float) :
  (F64.is_nan h = true -> calculateBMI w h = nan) /\
  (F64.is_nan w = true -> (h <=? 0) = false -> calculateBMI w h = nan).
Proof.
  unfold calculateBMI. split.
  - intros Hh. rewrite (F64Arith.leb_nan_l _ _ Hh).
    apply F64Arith.div_nan_r, F64Arith.mul_nan, Hh.
  - intros Hw ->. apply F64Arith.div_nan_l, Hw.
Qed.

(** ** Record store and handlers, continued *)

Lemma same_but_dataFile_refl (d : Disk) : same_but_dataFile d d.
Proof. split; [reflexivity|]. intros p _. reflexivity. Qed.

Lemma same_but_dataFile_trans (d1 d2 d3 : Disk) :
  same_but_dataFile d1 d2 -> same_but_dataFile d2 d3 -> same_but_dataFile d1 d3.
Proof.
  intros [R1 N1] [R2 N2]. split; [congruence|].
  intros p Hp. rewrite (N2 p Hp). apply N1, Hp.
Qed.

Lemma os_WriteFile_frame (d d' : Disk) (data : bytes) (err : option errno) :
  os_WriteFile d dataFile data = (d', err) -> same_but_dataFile d d'.
Proof.
  unfold os_WriteFile. destruct (readonly d) eqn:R.
  - intros [= <- _]. apply same_but_dataFile_refl.
  - destruct (nodes d !! dataFile) as [[?|]|]; intros [= <- _];
      try apply same_but_dataFile_refl;
      (split; [simpl; congruence|]); intros p Hp; simpl;
      apply lookup_insert_ne; congruence.
Qed.

Section MoreStoreProperties.
Context `{GoLib}.

Lemma saveUserData_frame (s s' : State) (err : error) :
  saveUserData s = Done err s' -> same_but_dataFile (disk s) (disk s').
Proof.
  unfold saveUserData, bind, gets, set_disk, ret; simpl.
  destruct (MarshalIndent (users s)) as [data [e|]].
  - intros [= _ <-]. apply same_but_dataFile_refl.
  - destruct (os_WriteFile (disk s) dataFile data) as [d' [e|]] eqn:W; simpl;
      intros [= _ <-]; simpl; apply (os_WriteFile_frame _ _ _ _ W).
Qed.

(** X3: [saveUserData] always returns and leaves the records and the log
    alone; when the records do not encode it fails before the disk is touched,
    the state being as it was; when it succeeds the records encoded and the
    file holds the encoding of all of them, whatever it held before.  No other
    path of the disk is touched. *)
Theorem saveUserData_spec (s : State) :
  exists (err : error) (s' : State),
    saveUserData s = Done err s' /\
    users s' = users s /\ logs s' = logs s /\
    (forall p : string, p <> dataFile ->
       nodes (disk s') !! p = nodes (disk s) !! p) /\
    (snd (MarshalIndent (users s)) <> None -> err <> None /\ s' = s) /\
    (err = None ->
       snd (MarshalIndent (users s)) = None /\
       nodes (disk s') !! dataFile
         = Some (RegularFile (fst (MarshalIndent (users s))))).
Proof.
  destruct (saveUserData_returns s) as (err & s' & S & Hu & Hl & _).
  exists err, s'. split; [exact S|]. split; [exact Hu|]. split; [exact Hl|].
  split; [exact (proj2 (saveUserData_frame s s' err S))|].
  unfold saveUserData, bind, gets, set_disk, ret in S; simpl in S.
  destruct (MarshalIndent (users s)) as [data [e|]] eqn:Hm; simpl.
  - injection S as <- <-. split; [|discriminate].
    intros _. split; [discriminate|reflexivity].
  - split; [intros C; contradiction|].
    intros ->. split; [reflexivity|].
    destruct (os_WriteFile (disk s) dataFile data) as [d' [e|]] eqn:W;
      simpl in S; [discriminate|].
    injection S as <-. apply os_WriteFile_ok in W. destruct W as (_ & _ & ->).
    simpl. apply lookup_insert_eq.
Qed.

Lemma valid_submission_spec (r : Request) :
  valid_submission r = true <->
  Method r = MethodPost /\ ParseFormErr r = None /\ rejected r = false.
Proof.
  unfold valid_submission.
  rewrite !andb_true_iff, String.eqb_eq, bool_decide_eq_true, negb_true_iff.
  tauto.
Qed.

(** What [calculateHandler] does, by the kind of request. *)
Lemma calculateHandler_outcome (w : ResponseWriter) (r : Request) (s : State) :
  exists w' s',
    calculateHandler w r s = Done w' s' /\
    same_but_dataFile (disk s) (disk s') /\
    if valid_submission r then
      users s' = users s ++ [newUserOf r] /\
      w' = http_Redirect w r "/?status=success" StatusSeeOther
    else
      s' = s /\
      (w' = http_Error w "Method not allowed" StatusMethodNotAllowed \/
       exists msg, w' = http_Error w msg StatusBadRequest).
Proof.
  unfold valid_submission.
  destruct (String.eqb (Method r) MethodPost) eqn:Hm.
  2:{ unfold calculateHandler. rewrite Hm. simpl. eexists _, _.
      split; [reflexivity|]. split; [apply same_but_dataFile_refl|]. auto. }
  apply String.eqb_eq in Hm.
  destruct (ParseFormErr r) as [e|] eqn:Hf.
  { unfold calculateHandler. rewrite Hm, String.eqb_refl, Hf. simpl.
    eexists _, _. split; [reflexivity|].
    split; [apply same_but_dataFile_refl|]. split; [reflexivity|]. eauto. }
  rewrite (calculateHandler_post w r s Hm Hf).
  rewrite bool_decide_eq_true_2 by reflexivity. simpl.
  destruct (rejected r); simpl.
  { eexists _, _. split; [reflexivity|].
    split; [apply same_but_dataFile_refl|]. split; [reflexivity|]. eauto. }
  destruct (saveUserData_returns
              (mkState (users s ++ [newUserOf r]) (disk s) (logs s)))
    as (err & s' & Hs & Hu & _ & _).
  pose proof (saveUserData_frame _ _ _ Hs) as Hframe. rewrite Hs.
  destruct err as [e|]; eexists _, _;
    (split; [reflexivity|]); simpl; (split; [exact Hframe|]);
    (split; [exact Hu|reflexivity]).
Qed.

(** An accepted submission whose save succeeds. *)
Lemma calculateHandler_saved
  (w : ResponseWriter) (r : Request) (s : State) (data : bytes) :
  valid_submission r = true ->
  MarshalIndent (users s ++ [newUserOf r]) = (data, None) ->
  readonly (disk s) = false ->
  nodes (disk s) !! dataFile <> Some Directory ->
  calculateHandler w r s
    = Done (http_Redirect w r "/?status=success" StatusSeeOther)
        (mkState (users s ++ [newUserOf r])
           (mkDisk (<[dataFile := RegularFile data]> (nodes (disk s))) false)
           (logs s)).
Proof.
  intros Hv Hm Hro Hdir.
  apply valid_submission_spec in Hv. destruct Hv as (Hp & Hf & Hrej).
  rewrite (calculateHandler_post w r s Hp Hf), Hrej.
  unfold saveUserData, bind, gets, set_disk, ret; simpl.
  rewrite Hm. unfold os_WriteFile. simpl. rewrite Hro.
  destruct (nodes (disk s) !! dataFile) as [[old|]|]; try reflexivity.
  congruence.
Qed.

(** X4: after an accepted submission whose save succeeds, memory and disk agree:
    the record is appended, the file holds the encoding of all the records in
    memory, nothing is logged, every other path is untouched, and the answer
    is the redirect. *)
Theorem calculateHandler_persists
  (w : ResponseWriter) (r : Request) (s : State) (data : bytes) :
  valid_submission r = true ->
  MarshalIndent (users s ++ [newUserOf r]) = (data, None) ->
  readonly (disk s) = false ->
  nodes (disk s) !! dataFile <> Some Directory ->
  exists s' : State,
    calculateHandler w r s
      = Done (http_Redirect w r "/?status=success" StatusSeeOther) s' /\
    users s' = users s ++ [newUserOf r] /\
    logs s' = logs s /\
    MarshalIndent (users s') = (data, None) /\
    nodes (disk s') !! dataFile = Some (RegularFile data) /\
    forall p : string, p <> dataFile ->
      nodes (disk s') !! p = nodes (disk s) !! p.
Proof.
  intros Hv Hm Hro Hdir. eexists. split.
  - apply (calculateHandler_saved w r s data Hv Hm Hro Hdir).
  - simpl. repeat split; try assumption.
    + apply lookup_insert_eq.
    + intros p Hp. apply lookup_insert_ne. congruence.
Qed.

(** X5: the answers of [calculateHandler] on a fresh writer: 405, 400, or 303
    with the Location of the page; it never panics or exits, and unless it
    answers 303 the state is as it was. *)
Theorem calculateHandler_statuses
  (w : ResponseWriter) (r : Request) (s : State) :
  status w = None ->
  exists w' s',
    calculateHandler w r s = Done w' s' /\
    (status w' = Some 405%Z \/ status w' = Some 400%Z \/
     (status w' = Some 303%Z /\
      header w' !! "Location" = Some "/?status=success")) /\
    (status w' <> Some 303%Z -> s' = s).
Proof.
  intros Hw.
  destruct (calculateHandler_outcome w r s) as (w' & s' & Hc & _ & Hk).
  exists w', s'. split; [exact Hc|].
  destruct (valid_submission r).
  - destruct Hk as (_ & ->).
    destruct (http_Redirect_status w r "/?status=success" StatusSeeOther Hw)
      as (Hs & Hl & _).
    split; [right; right; split; assumption|]. intros C. contradiction.
  - destruct Hk as (-> & [->|(msg & ->)]).
    + split; [left; exact (proj1 (http_Error_status w _ _ Hw))|reflexivity].
    + split; [right; left; exact (proj1 (http_Error_status w _ _ Hw))|reflexivity].
Qed.

(** X6: validation lets NaN through: a weight or a height that parses to NaN
    (and is therefore not zero or below) is accepted, and the record is
    stored with a NaN BMI and the category "Cannot interpret". *)
Theorem calculateHandler_accepts_nan
  (w : ResponseWriter) (r : Request) (s : State) (weightKg heightM : float) :
  Method r = MethodPost -> ParseFormErr r = None ->
  ParseFloat (FormValue r "weight") = (weightKg, None) ->
  ParseFloat (FormValue r "height") = (heightM, None) ->
  F64.is_nan weightKg = true \/ F64.is_nan heightM = true ->
  (weightKg <=? 0) = false -> (heightM <=? 0) = false ->
  exists s',
    calculateHandler w r s
      = Done (http_Redirect w r "/?status=success" StatusSeeOther) s' /\
    users s' = users s
               ++ [mkUser (FormValue r "name") weightKg heightM nan
                     "Cannot interpret"].
Proof.
  intros Hm Hf HW HH Hnan Lw Lh.
  assert (Hrej : rejected r = false).
  { unfold rejected. rewrite HW, HH, Lw, Lh.
    rewrite !bool_decide_eq_false_2 by (intros C; apply C; reflexivity).
    reflexivity. }
  assert (Hbmi : calculateBMI weightKg heightM = nan).
  { destruct Hnan as [N|N].
    - apply (proj2 (calculateBMI_nan weightKg heightM) N Lh).
    - apply (proj1 (calculateBMI_nan weightKg heightM) N). }
  assert (Hnew : newUserOf r
                 = mkUser (FormValue r "name") weightKg heightM nan
                     "Cannot interpret").
  { unfold newUserOf. rewrite HW, HH. simpl. rewrite Hbmi. reflexivity. }
  assert (Hv : valid_submission r = true).
  { apply valid_submission_spec. auto. }
  destruct (calculateHandler_outcome w r s) as (w' & s' & Hc & _ & Hk).
  rewrite Hv in Hk. destruct Hk as (Hu & ->).
  exists s'. split; [exact Hc|]. rewrite Hu, Hnew. reflexivity.
Qed.

(** X13: [loadUserData] only reads: in every outcome the disk is as it was
    (a missing file is not created) and the log has one more line; it returns
    exactly when the file is missing or holds a document that decodes, and
    exits otherwise. *)
Theorem loadUserData_reads_only (s : State) :
  disk (state_of (loadUserData s)) = disk s /\
  (exists line : string, logs (state_of (loadUserData s)) = logs s ++ [line]) /\
  ((exists s' : State, loadUserData s = Done tt s') <->
   nodes (disk s) !! dataFile = None \/
   exists data : bytes,
     nodes (disk s) !! dataFile = Some (RegularFile data) /\
     snd (Unmarshal data (users s)) = None) /\
  ((exists s' : State, loadUserData s = Exit 1 s') \/
   (exists s' : State, loadUserData s = Done tt s')).
Proof.
  unfold loadUserData, bind, gets, os_ReadFile.
  destruct (nodes (disk s) !! dataFile) as [[data|]|] eqn:N; simpl.
  - destruct (Unmarshal data (users s)) as [us' [e|]] eqn:U; simpl.
    + split; [reflexivity|]. split; [eauto|]. split; [|eauto].
      split; [intros (s' & C); discriminate|].
      intros [C|(d & [= <-] & C)]; [discriminate|].
      rewrite U in C. discriminate.
    + split; [reflexivity|]. split; [eauto|]. split; [|eauto].
      split; [|eauto]. intros _. right. exists data. rewrite U. auto.
  - split; [reflexivity|]. split; [eauto|]. split; [|eauto].
    split; [intros (s' & C); discriminate|].
    intros [C|(d & C & _)]; discriminate.
  - split; [reflexivity|]. split; [eauto|]. split; [|eauto].
    split; eauto.
Qed.

End MoreStoreProperties.

Section MoreServerProperties.
Context `{GoLib}.

(** The handler of "/" touches nothing but, when it panics, the log of the
    server. *)
Lemma serveHTTP_page (r : Request) (s : State) :
  String.eqb (Path r) "/calculate" = false ->
  exists w s',
    serveHTTP r s = Done w s' /\ users s' = users s /\ disk s' = disk s /\
    (w <> None -> s' = s).
Proof.
  intros Hp. unfold serveHTTP, route. rewrite Hp.
  pose proof (rootHandler_state newResponseWriter r s) as Hs.
  pose proof (rootHandler_no_exit newResponseWriter r s) as Hx.
  destruct (rootHandler newResponseWriter r s) as [w' s'|msg s'|code s'];
    simpl in Hs; subst s'.
  - eexists _, _. repeat split.
  - eexists _, _. split; [reflexivity|]. repeat split. intros C. congruence.
  - exfalso. eapply Hx. reflexivity.
Qed.

(** One request served: the record it adds, if any, and the disk. *)
Lemma serveHTTP_outcome (r : Request) (s : State) :
  exists w s',
    serveHTTP r s = Done w s' /\
    same_but_dataFile (disk s) (disk s') /\
    users s' = users s ++ (if accepted r then [newUserOf r] else []).
Proof.
  unfold accepted.
  destruct (String.eqb (Path r) "/calculate") eqn:Hp; simpl.
  - unfold serveHTTP, route. rewrite Hp.
    destruct (calculateHandler_outcome newResponseWriter r s)
      as (w' & s' & -> & Hframe & Hk).
    eexists _, _. split; [reflexivity|]. split; [exact Hframe|].
    destruct (valid_submission r).
    + apply Hk.
    + destruct Hk as (-> & _). symmetry. apply app_nil_r.
  - destruct (serveHTTP_page r s Hp) as (w & s' & Hs & Hu & Hd & _).
    exists w, s'. split; [exact Hs|]. rewrite Hd, Hu, app_nil_r.
    split; [apply same_but_dataFile_refl|reflexivity].
Qed.

Lemma serve_outcome (rs : list Request) (s : State) :
  exists ws s',
    serve rs s = Done ws s' /\
    length ws = length rs /\
    same_but_dataFile (disk s) (disk s') /\
    users s' = users s ++ map newUserOf (List.filter accepted rs).
Proof.
  revert s. induction rs as [|r rs IH]; intros s.
  - exists [], s. simpl. rewrite app_nil_r.
    repeat split; reflexivity.
  - destruct (serveHTTP_outcome r s) as (w & s1 & Hr & F1 & U1).
    destruct (IH s1) as (ws & s2 & Hrs & Hlen & F2 & U2).
    exists (w :: ws), s2. simpl. unfold bind. rewrite Hr, Hrs. unfold ret.
    split; [reflexivity|]. split; [simpl; congruence|].
    split; [exact (same_but_dataFile_trans _ _ _ F1 F2)|].
    rewrite U2, U1, <- app_assoc. f_equal.
    destruct (accepted r); reflexivity.
Qed.

Lemma accepted_validated (r : Request) :
  rejected r = false -> validated (newUserOf r).
Proof.
  unfold rejected, validated, newUserOf, calculateBMI.
  destruct (ParseFloat (FormValue r "weight")) as [weightKg errW].
  destruct (ParseFloat (FormValue r "height")) as [heightM errH]. simpl.
  intros Hrej. apply orb_false_iff in Hrej. destruct Hrej as [Hrej Lh].
  apply orb_false_iff in Hrej. destruct Hrej as [_ Lw].
  rewrite Lh. auto.
Qed.

(** An accepted request is answered with the redirect. *)
Lemma serveHTTP_accepted (r : Request) (s : State) :
  accepted r = true ->
  exists s',
    serveHTTP r s
      = Done (Some (http_Redirect newResponseWriter r "/?status=success"
                      StatusSeeOther)) s'.
Proof.
  unfold accepted. intros Hacc. apply andb_true_iff in Hacc.
  destruct Hacc as [Hp Hv]. unfold serveHTTP, route. rewrite Hp.
  destruct (calculateHandler_outcome newResponseWriter r s)
    as (w' & s' & -> & _ & Hk).
  rewrite Hv in Hk. destruct Hk as (_ & ->). eexists. reflexivity.
Qed.

Lemma serve_answers (rs : list Request) (s : State) :
  exists ws s',
    serve rs s = Done ws s' /\
    users s' = users s ++ map newUserOf (List.filter accepted rs) /\
    Forall2 (fun r w =>
               accepted r = true ->
               w = Some (http_Redirect newResponseWriter r "/?status=success"
                           StatusSeeOther)) rs ws.
Proof.
  revert s. induction rs as [|r rs IH]; intros s.
  - exists [], s. simpl. rewrite app_nil_r. repeat split. constructor.
  - destruct (serveHTTP_outcome r s) as (w & s1 & Hr & _ & U1).
    destruct (IH s1) as (ws & s2 & Hrs & U2 & Hans).
    exists (w :: ws), s2. simpl. unfold bind. rewrite Hr, Hrs. unfold ret.
    split; [reflexivity|]. split.
    + rewrite U2, U1, <- app_assoc. f_equal.
      destruct (accepted r); reflexivity.
    + constructor; [|exact Hans]. intros Hacc.
      destruct (serveHTTP_accepted r s Hacc) as (s1' & Hr').
      rewrite Hr in Hr'. congruence.
Qed.

(** X7: the records after any run of the server are the records before it
    followed by one record for each accepted request, in the order of the
    requests: nothing is dropped, reordered or added twice; and each accepted
    request is answered with the redirect.  (A request that is not accepted
    gets its own answer, or none when its handler panics.) *)
Theorem serve_records (rs : list Request) (s : State) :
  exists (ws : list (option ResponseWriter)) (s' : State),
    serve rs s = Done ws s' /\
    users s' = users s ++ map newUserOf (List.filter accepted rs) /\
    length (users s')
      = (length (users s) + length (List.filter accepted rs))%nat /\
    Forall2 (fun r w =>
               accepted r = true ->
               w = Some (http_Redirect newResponseWriter r "/?status=success"
                           StatusSeeOther)) rs ws.
Proof.
  destruct (serve_answers rs s) as (ws & s' & Hs & Hu & Hans).
  exists ws, s'. repeat split; try assumption.
  rewrite Hu, length_app, length_map. reflexivity.
Qed.

(** X8: every record the server adds passed the test of step 2: its weight and
    height are not zero or below, so the zero-height guard of [calculateBMI]
    was not taken and its BMI is the quotient. *)
Theorem serve_added_validated (rs : list Request) (s : State) :
  exists (ws : list (option ResponseWriter)) (s' : State) (added : list User),
    serve rs s = Done ws s' /\
    users s' = users s ++ added /\
    Forall (fun u =>
              (WeightKg u <=? 0) = false /\ (HeightM u <=? 0) = false /\
              BMI u = WeightKg u / (HeightM u * HeightM u)) added.
Proof.
  destruct (serve_outcome rs s) as (ws & s' & Hs & _ & _ & Hu).
  exists ws, s', (map newUserOf (List.filter accepted rs)).
  split; [exact Hs|]. split; [exact Hu|].
  apply List.Forall_forall. intros u Hin.
  apply List.in_map_iff in Hin. destruct Hin as (r & <- & Hr).
  apply List.filter_In in Hr. destruct Hr as [_ Hacc].
  unfold accepted in Hacc. apply andb_true_iff in Hacc.
  destruct Hacc as [_ Hv]. apply valid_submission_spec in Hv.
  apply (accepted_validated r), Hv.
Qed.

(** X9: the server writes no file but the persisted one: whatever it serves,
    every other path of the disk, and the read-only flag, stay as they were. *)
Theorem serve_writes_only_dataFile (rs : list Request) (s : State) :
  exists (ws : list (option ResponseWriter)) (s' : State),
    serve rs s = Done ws s' /\
    readonly (disk s') = readonly (disk s) /\
    forall p : string, p <> dataFile ->
      nodes (disk s') !! p = nodes (disk s) !! p.
Proof.
  destruct (serve_outcome rs s) as (ws & s' & Hs & _ & [Hro Hn] & _).
  exists ws, s'. repeat split; assumption.
Qed.

(** X10: requests to any path other than /calculate are read-only: the records
    and the disk stay as they were, and unless the handler panics so does the
    log. *)
Theorem serveHTTP_page_read_only (r : Request) (s : State) :
  Path r <> "/calculate" ->
  exists (w : option ResponseWriter) (s' : State),
    serveHTTP r s = Done w s' /\ users s' = users s /\ disk s' = disk s /\
    (w <> None -> s' = s).
Proof.
  intros Hp. apply String.eqb_neq in Hp. apply serveHTTP_page, Hp.
Qed.

(** The page for the last record of a state that has one. *)
Lemma rootHandler_last (w : ResponseWriter) (r : Request) (s : State)
  (us : list User) (u : User) :
  Values_Get (URLQuery r) "status" = "success" ->
  users s = us ++ [u] ->
  rootHandler w r s =
    let res := ExecuteTemplate w
                 (mkViewModel (us ++ [u]) (successMessage (Name u) (BMI u))) in
    Done match snd res with
         | Some e =>
             http_Error (fst res) ("Error rendering template: " +:+ e)
               StatusInternalServerError
         | None => fst res
         end s.
Proof.
  intros Hq Hu. unfold rootHandler. rewrite Hq, String.eqb_refl.
  unfold bind, gets, index. rewrite Hu.
  assert (Hlen : (len (us ++ [u]) - 1)%Z = Z.of_nat (length us)).
  { unfold len. rewrite length_app. simpl. lia. }
  rewrite Hlen.
  destruct (Z.ltb_spec (Z.of_nat (length us)) 0); [lia|].
  rewrite Nat2Z.id.
  assert (Hlk : (us ++ [u]) !! length us = Some u).
  { rewrite lookup_app_r by lia. rewrite Nat.sub_diag. reflexivity. }
  rewrite Hlk. unfold ret.
  destruct (ExecuteTemplate w _) as [w' [e|]]; reflexivity.
Qed.

(** X11: the redirect of an accepted submission leads to a page that is defined:
    in the state the submission leaves, the handler of "/" with
    [status=success] does not panic, and its message names the record just
    added and its BMI. *)
Theorem redirect_target_names_new_record
  (w w2 : ResponseWriter) (r r2 : Request) (s : State) :
  valid_submission r = true ->
  Values_Get (URLQuery r2) "status" = "success" ->
  exists (s' : State),
    calculateHandler w r s
      = Done (http_Redirect w r "/?status=success" StatusSeeOther) s' /\
    rootHandler w2 r2 s' =
      let res := ExecuteTemplate w2
                   (mkViewModel (users s ++ [newUserOf r])
                      (successMessage (FormValue r "name")
                         (BMI (newUserOf r)))) in
      Done match snd res with
           | Some e =>
               http_Error (fst res) ("Error rendering template: " +:+ e)
                 StatusInternalServerError
           | None => fst res
           end s'.
Proof.
  intros Hv Hq.
  destruct (calculateHandler_outcome w r s) as (w' & s' & Hc & _ & Hk).
  rewrite Hv in Hk. destruct Hk as (Hu & ->).
  exists s'. split; [exact Hc|].
  apply (rootHandler_last w2 r2 s' (users s) (newUserOf r) Hq Hu).
Qed.

(** X12: a first run: with no persisted file, a writable disk and templates that
    parse, [main] starts with no record, and an accepted submission whose
    record encodes creates the file with the encoding of that one record. *)
Theorem main_first_run (r : Request) (s : State) (data : bytes) :
  nodes (disk s) !! dataFile = None ->
  readonly (disk s) = false ->
  ParseGlob (disk s) = None ->
  accepted r = true ->
  MarshalIndent [newUserOf r] = (data, None) ->
  main [r] s
    = Done [Some (http_Redirect newResponseWriter r "/?status=success"
                    StatusSeeOther)]
        (mkState [newUserOf r]
           (mkDisk (<[dataFile := RegularFile data]> (nodes (disk s))) false)
           (logs s ++ [missingNote;
                       "Starting web server on http://localhost:8080"])).
Proof.
  intros Habs Hro Hglob Hacc Hm.
  unfold accepted in Hacc. apply andb_true_iff in Hacc.
  destruct Hacc as [Hpath Hv].
  unfold main, bind at 1. rewrite (loadUserData_absent s Habs).
  unfold bind at 1, gets. simpl. rewrite Hglob.
  unfold bind at 1, ret. unfold bind at 1, log_Printf. simpl.
  unfold bind at 1, serveHTTP, route. rewrite Hpath.
  rewrite (calculateHandler_saved newResponseWriter r _ data Hv);
    simpl; try assumption.
  - rewrite <- app_assoc. reflexivity.
  - rewrite Habs. discriminate.
Qed.

End MoreServerProperties.

(** ** The properties on the sample library *)

#[local] Existing Instance Sample.lib.

(** C3 (evaluated where it fails): a POST to /calculate whose weight is the
    text NaN, which [ParseFloat] reads without error as a value that is not a
    number and not zero or below, is not answered 400: the answer is the 303
    redirect, and a record with a NaN weight and BMI is appended. *)
Theorem calculateHandler_nan_submission :
  @ParseFloat SampleSpecial.lib "NaN" = (nan, None) /\
  (nan <=? 0) = false /\ (0 <? nan) = false /\
  exists (w' : ResponseWriter) (s' : State),
    @calculateHandler SampleSpecial.lib newResponseWriter
      (Sample.post "Ann" "NaN" "1.75") Sample.initial = Done w' s' /\
    status w' = Some 303%Z /\
    header w' !! "Location" = Some "/?status=success" /\
    users s' = [mkUser "Ann" nan 1.75 nan "Cannot interpret"].
Proof.
  split; [reflexivity|]. split; [reflexivity|]. split; [reflexivity|].
  eexists _, _. split; [vm_compute; reflexivity|].
  repeat split; vm_compute; reflexivity.
Qed.

Lemma calculateHandler_invalid_input_witness :
  (exists w',
     calculateHandler newResponseWriter (Sample.post "Ada" "0" "1.70")
       Sample.initial = Done w' Sample.initial /\
     (status newResponseWriter = None -> status w' = Some 400%Z) /\
     (ParseFormErr (Sample.post "Ada" "0" "1.70") = None ->
      w' = http_Error newResponseWriter invalidInputMessage StatusBadRequest /\
      (status newResponseWriter = None ->
       body w' = body newResponseWriter +:+ invalidInputMessage
                 +:+ String "010"%char ""))) /\
  exists s',
    calculateHandler newResponseWriter
      (Sample.post "Ada" "900000000000000" "1.70") Sample.initial
      = Done (http_Redirect newResponseWriter
                (Sample.post "Ada" "900000000000000" "1.70")
                "/?status=success" StatusSeeOther) s' /\
    users s' = users Sample.initial
               ++ [newUserOf (Sample.post "Ada" "900000000000000" "1.70")].
Proof.
  split.
  - refine (proj1 (calculateHandler_invalid_input newResponseWriter
                     (Sample.post "Ada" "0" "1.70") Sample.initial 0 1.7 None None
                     _ _ _) _);
      try (vm_compute; reflexivity).
    right; right; left. reflexivity.
  - refine (proj2 (calculateHandler_invalid_input newResponseWriter
                     (Sample.post "Ada" "900000000000000" "1.70") Sample.initial
                     900000000000000 1.7 None None _ _ _) _ _ _ _ _);
      vm_compute; reflexivity.
Defined.

Lemma calculateHandler_save_failure_witness :
  calculateHandler newResponseWriter (Sample.post "Ada" "75.5" "1.75")
    (mkState [] (mkDisk ∅ true) [])
  = Done (http_Redirect newResponseWriter (Sample.post "Ada" "75.5" "1.75")
            "/?status=success" StatusSeeOther)
      (mkState [Sample.ada] (mkDisk ∅ true)
         ["Failed to save data: error writing data to file: "
          +:+ "open users_data.json: read-only file system"]).
Proof.
  refine (proj1 (calculateHandler_save_failure newResponseWriter
                   (Sample.post "Ada" "75.5" "1.75")
                   (mkState [] (mkDisk ∅ true) [])
                   (mkState [Sample.ada] (mkDisk ∅ true) [])
                   75.5 1.75
                   ("error writing data to file: "
                    +:+ "open users_data.json: read-only file system")
                   _ _ _ _ _ _ _));
    vm_compute; reflexivity.
Defined.

Lemma calculateHandler_method_not_allowed_witness :
  calculateHandler newResponseWriter
    (mkRequest "GET" "/calculate" ∅ None ∅) Sample.initial
  = Done (http_Error newResponseWriter "Method not allowed" StatusMethodNotAllowed)
      Sample.initial.
Proof.
  refine (proj1 (calculateHandler_method_not_allowed newResponseWriter
                   (mkRequest "GET" "/calculate" ∅ None ∅) Sample.initial _)).
  discriminate.
Defined.

Lemma loadUserData_startup_witness :
  loadUserData Sample.initial
    = Done tt (mkState [] Sample.emptyDisk [missingNote]) /\
  main [Sample.get false]
    (mkState [] (mkDisk {[ dataFile := RegularFile "{not json" ]} false) [])
    = Exit 1 (mkState []
                (mkDisk {[ dataFile := RegularFile "{not json" ]} false)
                ["Error unmarshalling JSON data: "
                 +:+ "invalid character looking for beginning of value"]).
Proof.
  split.
  - refine (proj1 (loadUserData_startup Sample.initial) _). reflexivity.
  - refine (proj2 (proj2 (loadUserData_startup
                            (mkState []
                               (mkDisk {[ dataFile := RegularFile "{not json" ]} false)
                               []))
                     "{not json" []
                     "invalid character looking for beginning of value" _ _) _);
      vm_compute; reflexivity.
Defined.

Lemma rootHandler_success_indexes_last_witness :
  rootHandler newResponseWriter (Sample.get true) Sample.initial
    = Panic "runtime error: index out of range [-1]" Sample.initial /\
  body (match rootHandler newResponseWriter (Sample.get true) adaStored with
        | Done w _ => w
        | _ => newResponseWriter
        end)
    = "<p>Success! Ada's BMI (24.65) calculated and saved.</p>".
Proof.
  split.
  - refine (proj1 (proj1 (rootHandler_success_indexes_last newResponseWriter
                            (Sample.get true) Sample.initial _) _));
      reflexivity.
  - rewrite (proj2 (rootHandler_success_indexes_last newResponseWriter
                      (Sample.get true) adaStored eq_refl) [] Sample.ada eq_refl).
    reflexivity.
Defined.

(** A submission of 76.4 kg at 1.75 m is accepted and stored with the category
    "Cannot interpret". *)
Example gap_record_stored :
  exists ws s',
    serve [Sample.post "Bob" "76.4" "1.75"] Sample.initial = Done ws s' /\
    users s' = [mkUser "Bob" 76.4 1.75 24.946938775510205 "Cannot interpret"].
Proof. eexists _, _. split; vm_compute; reflexivity. Qed.

(** ** The further properties on the sample libraries *)

Lemma calculateBMI_positive_inputs_witness :
  (calculateBMI 75.5 1.75 <? 0) = false /\
  (0 <=? calculateBMI 75.5 1.75) = true.
Proof.
  split.
  - refine (proj1 (calculateBMI_positive_inputs 75.5 1.75 _ _)); reflexivity.
  - refine (proj2 (calculateBMI_positive_inputs 75.5 1.75 _ _) _); reflexivity.
Defined.

Lemma calculateHandler_persists_witness :
  exists s' : State,
    calculateHandler newResponseWriter (Sample.post "Ada" "75.5" "1.75")
      Sample.initial
      = Done (http_Redirect newResponseWriter (Sample.post "Ada" "75.5" "1.75")
                "/?status=success" StatusSeeOther) s' /\
    users s' = users Sample.initial
               ++ [newUserOf (Sample.post "Ada" "75.5" "1.75")] /\
    logs s' = logs Sample.initial /\
    MarshalIndent (users s') = (Sample.ada_json, None) /\
    nodes (disk s') !! dataFile = Some (RegularFile Sample.ada_json) /\
    forall p : string, p <> dataFile ->
      nodes (disk s') !! p = nodes (disk Sample.initial) !! p.
Proof.
  refine (calculateHandler_persists newResponseWriter
            (Sample.post "Ada" "75.5" "1.75") Sample.initial Sample.ada_json
            _ _ _ _);
    try (vm_compute; reflexivity).
  discriminate.
Defined.

Lemma calculateHandler_statuses_witness :
  exists w' s',
    calculateHandler newResponseWriter (Sample.post "Ada" "abc" "1.75")
      Sample.initial = Done w' s' /\
    (status w' = Some 405%Z \/ status w' = Some 400%Z \/
     (status w' = Some 303%Z /\
      header w' !! "Location" = Some "/?status=success")) /\
    (status w' <> Some 303%Z -> s' = Sample.initial).
Proof.
  refine (calculateHandler_statuses newResponseWriter
            (Sample.post "Ada" "abc" "1.75") Sample.initial _).
  reflexivity.
Defined.

Lemma calculateHandler_accepts_nan_witness :
  exists s',
    @calculateHandler SampleSpecial.lib newResponseWriter
      (Sample.post "Nan" "NaN" "1.75") Sample.initial
      = Done (http_Redirect newResponseWriter (Sample.post "Nan" "NaN" "1.75")
                "/?status=success" StatusSeeOther) s' /\
    users s' = users Sample.initial
               ++ [mkUser (FormValue (Sample.post "Nan" "NaN" "1.75") "name")
                     nan 1.75 nan "Cannot interpret"].
Proof.
  refine (@calculateHandler_accepts_nan SampleSpecial.lib newResponseWriter
            (Sample.post "Nan" "NaN" "1.75") Sample.initial nan 1.75
            _ _ _ _ _ _ _);
    try (vm_compute; reflexivity).
  left. reflexivity.
Defined.

Lemma serveHTTP_page_read_only_witness :
  exists (w : option ResponseWriter) (s' : State),
    serveHTTP (Sample.get false) adaStored = Done w s' /\
    users s' = users adaStored /\ disk s' = disk adaStored /\
    (w <> None -> s' = adaStored).
Proof.
  refine (serveHTTP_page_read_only (Sample.get false) adaStored _).
  discriminate.
Defined.

Lemma redirect_target_names_new_record_witness :
  exists (s' : State),
    calculateHandler newResponseWriter (Sample.post "Ada" "75.5" "1.75")
      Sample.initial
      = Done (http_Redirect newResponseWriter (Sample.post "Ada" "75.5" "1.75")
                "/?status=success" StatusSeeOther) s' /\
    rootHandler newResponseWriter (Sample.get true) s' =
      let res := ExecuteTemplate newResponseWriter
                   (mkViewModel
                      (users Sample.initial
                       ++ [newUserOf (Sample.post "Ada" "75.5" "1.75")])
                      (successMessage
                         (FormValue (Sample.post "Ada" "75.5" "1.75") "name")
                         (BMI (newUserOf (Sample.post "Ada" "75.5" "1.75"))))) in
      Done match snd res with
           | Some e =>
               http_Error (fst res) ("Error rendering template: " +:+ e)
                 StatusInternalServerError
           | None => fst res
           end s'.
Proof.
  refine (redirect_target_names_new_record newResponseWriter newResponseWriter
            (Sample.post "Ada" "75.5" "1.75") (Sample.get true) Sample.initial
            _ _);
    vm_compute; reflexivity.
Defined.

Lemma main_first_run_witness :
  main [Sample.post "Ada" "75.5" "1.75"] Sample.initial
    = Done [Some (http_Redirect newResponseWriter
                    (Sample.post "Ada" "75.5" "1.75") "/?status=success"
                    StatusSeeOther)]
        (mkState [newUserOf (Sample.post "Ada" "75.5" "1.75")]
           (mkDisk (<[dataFile := RegularFile Sample.ada_json]>
                      (nodes (disk Sample.initial))) false)
           (logs Sample.initial
            ++ [missingNote; "Starting web server on http://localhost:8080"])).
Proof.
  refine (main_first_run (Sample.post "Ada" "75.5" "1.75") Sample.initial
            Sample.ada_json _ _ _ _ _);
    vm_compute; reflexivity.
Defined.
